(** * Veritas Lens: the analysis pipeline of [App.tsx] and the
      classification client [services/geminiService.ts]

    A shallow embedding of [runAnalysis], [addLog], [handleFileSelect]
    (src/App.tsx) and of [calculateFileHash], [fileToGenerativePart],
    [analyzeMedia] (src/unnamed/part_001), followed by theorems about the
    staged pipeline and the report it builds. *)

From Stdlib Require Import QArith Ascii String Sorted.
From stdpp Require Import gmap strings list fin_maps.

Local Open Scope string_scope.
Local Open Scope N_scope.

(** ** JavaScript values

    The payload of the classification service goes through [JSON.parse] and
    is never validated, so report fields hold arbitrary values, whatever
    types.ts declares. *)

(** A JS number: a double is a rational, an infinity or NaN.  The pipeline
    performs no arithmetic on payload numbers; it only tests them for
    truthiness. *)
Inductive number : Type :=
  | NaN
  | Infinity (negative : bool)
  | Finite (q : Q).

Inductive value : Type :=
  | VUndefined
  | VNull
  | VBool (b : bool)
  | VNum (n : number)
  | VStr (s : string)
  | VArr (items : list value)
  | VObj (props : gmap string value).

(** ToBoolean: [undefined], [null], [false], [0], [-0], [NaN] and [''] are
    falsy, everything else (every array and object too) is truthy. *)
Definition truthy (v : value) : bool :=
  match v with
  | VUndefined | VNull => false
  | VBool b => b
  | VNum NaN => false
  | VNum (Infinity _) => true
  | VNum (Finite q) => negb (Qeq_bool q 0)
  | VStr s => negb (String.eqb s "")
  | VArr _ | VObj _ => true
  end.

(** [a || b] *)
Definition js_or (a b : value) : value := if truthy a then a else b.

Infix "|||" := js_or (at level 50, left associativity).

(** What can be thrown: an [Error] object ([name], [message]) or a bare
    string (a promise may reject with any value). *)
Inductive thrown : Type :=
  | ErrorObj (name message : string)
  | Rejected (reason : string).

(** [`${error}`]: Error.prototype.toString for error objects. *)
Definition thrown_toString (e : thrown) : string :=
  match e with
  | ErrorObj name message =>
      if String.eqb name "" then message
      else if String.eqb message "" then name
      else name ++ ": " ++ message
  | Rejected reason => reason
  end.

(** ** Numbers to text *)

(** Digits of [n] in the given radix, least significant first.  A number
    below [2^k] has at most [k] digits, so the fuel [S (log2 n)] of
    [digits] is never exhausted. *)
Fixpoint digits_le (radix : N) (fuel : nat) (n : N) : list N :=
  match fuel with
  | O => []
  | S fuel' =>
      if n <? radix then [n]
      else (n mod radix) :: digits_le radix fuel' (n / radix)
  end.

Definition digits (radix : N) (n : N) : list N :=
  digits_le radix (S (N.to_nat (N.log2 n))) n.

Definition digit_char (d : N) : ascii :=
  match d with
  | 0 => "0" | 1 => "1" | 2 => "2" | 3 => "3" | 4 => "4"
  | 5 => "5" | 6 => "6" | 7 => "7" | 8 => "8" | 9 => "9"
  | 10 => "a" | 11 => "b" | 12 => "c" | 13 => "d" | 14 => "e"
  | _ => "f"
  end%char.

(** [n.toString(radix)] for a non-negative integer, [2 <= radix <= 16]. *)
Definition toString_radix (radix n : N) : string :=
  string_of_list_ascii (digit_char <$> rev (digits radix n)).

(** [n.toString()] *)
Definition toString (n : N) : string := toString_radix 10 n.

(** [s.slice(-k)]: the last [k] characters, all of [s] when it is shorter. *)
Definition slice_last (k : nat) (s : string) : string :=
  let l := list_ascii_of_string s in
  string_of_list_ascii (drop (length l - k) l).

(** [s.substring(0, k)] *)
Definition substring_to (k : nat) (s : string) : string :=
  String.substring 0 (Nat.min k (String.length s)) s.

(** [s.padStart(2, '0')] *)
Definition padStart2 (s : string) : string :=
  match String.length s with
  | O => "00" ++ s
  | S O => "0" ++ s
  | _ => s
  end.

(** [(size / 1024 / 1024).toFixed(2)] for a byte count [size].
    Dividing an integer below 2^53 by 1024 twice is exact in doubles, so
    the receiver of [toFixed] is exactly [size / 2^20]; [toFixed(2)] takes
    the integer [n] nearest to [100 * x], the larger one on a tie, and
    prints [n] with a point before its last two digits. *)
Definition mb_toFixed2 (size : N) : string :=
  let n := (200 * size + 1048576) / 2097152 in
  toString (n / 100) ++ "." ++ padStart2 (toString (n mod 100)).


(** [s.split(',')[1]]: the text between the first and the second comma,
    [undefined] when [s] has no comma. *)
Fixpoint until_comma (l : list ascii) : list ascii :=
  match l with
  | [] => []
  | c :: l' => if Ascii.eqb c "," then [] else c :: until_comma l'
  end.

Fixpoint split_comma_1 (l : list ascii) : option string :=
  match l with
  | [] => None
  | c :: l' =>
      if Ascii.eqb c "," then Some (string_of_list_ascii (until_comma l'))
      else split_comma_1 l'
  end.

(** ** types.ts *)

Inductive MediaType : Type := IMAGE | VIDEO | AUDIO | UNKNOWN.

Inductive ModuleTab : Type :=
  DASHBOARD | VISUAL_LAB | SEMANTIC | METADATA | PROVENANCE.

(** The fields the classification service supplies are typed in types.ts,
    but TypeScript types are erased: at run time they hold whatever the
    parsed payload held. *)
Record ForensicReport : Type := mkReport {
  id : string;
  fileName : string;
  fileType : MediaType;
  timestamp : string;
  fileHash : string;
  authenticityScore : value;
  isManipulated : value;
  manipulationType : value;
  ensembleData : value;
  semanticMismatchDetected : value;
  semanticAnalysisText : value;
  reasoning : value;
  suspiciousRegions : value;
  metadata : gmap string value
}.

Record AnalysisState : Type := mkState {
  isAnalyzing : bool;
  progress : N;
  currentStep : string;
  logs : list string
}.

(** The browser's [File]. *)
Record File : Type := mkFile {
  file_name : string;
  file_size : N;
  file_type : string
}.

(** The object [analyzeMedia] returns ([Partial<ForensicReport>]): these
    nine own properties, each possibly [undefined]. *)
Record AiResult : Type := mkAiResult {
  ai_authenticityScore : value;
  ai_isManipulated : value;
  ai_manipulationType : value;
  ai_ensembleData : value;
  ai_semanticMismatchDetected : value;
  ai_semanticAnalysisText : value;
  ai_reasoning : value;
  ai_suspiciousRegions : value;
  ai_metadata : value
}.

(** ** The platform

    What the code calls but does not define: the environment, the file and
    crypto APIs, the remote model, [JSON.parse] and the clock.  Each is a
    function of its arguments, fixed for a session. *)

(** The arguments of [ai.models.generateContent] that vary: the file part
    and the two values interpolated into the system prompt.  The model name,
    the user text and the response schema are constants of the source. *)
Record GenRequest : Type := mkGenRequest {
  req_data : option string;
  req_mimeType : string;
  req_mediaType : MediaType;
  req_claim : string
}.

Record Platform : Type := mkPlatform {
  env_API_KEY : option string;                       (* process.env.API_KEY *)
  arrayBuffer : File -> thrown + list N;             (* file.arrayBuffer() *)
  subtle_digest : list N -> thrown + list N;         (* crypto.subtle.digest *)
  readAsDataURL : File -> string;                    (* reader.result *)
  generateContent : GenRequest -> thrown + option string;  (* response.text *)
  JSON_parse : string -> thrown + value;
  clock : nat -> N;                 (* the k-th reading of the clock, in ms *)
  toLocaleTimeString : N -> string;
  toISOString : N -> string;
  createObjectURL : File -> string
}.

(** What the code does to the outside, in order. *)
Inductive effect : Type :=
  | EArrayBuffer (f : File)
  | EDigest (bytes : list N)
  | EReadAsDataURL (f : File)
  | EGenerateContent (req : GenRequest)
  | ESetTimeout (ms : N)
  | EConsoleError (e : thrown).

(** ** The component state of [AnalysisDashboard]

    The React state cells of the component, with two ghost fields:
    [history] collects every value [analysisState] is set to, [effects]
    every outside call; [ticks] counts the clock readings. *)
Record World : Type := mkWorld {
  file : option File;
  previewUrl : option string;
  contextText : string;
  analysisState : AnalysisState;
  report : option ForensicReport;
  activeTab : ModuleTab;
  history : list AnalysisState;
  effects : list effect;
  ticks : nat
}.

Definition initialWorld : World :=
  {| file := None; previewUrl := None; contextText := "";
     analysisState := {| isAnalyzing := false; progress := 0;
                         currentStep := "IDLE"; logs := [] |};
     report := None; activeTab := DASHBOARD;
     history := []; effects := []; ticks := O |}.

(** ** A state and exception monad for the async code

    One run is a sequential pipeline: [await] is sequencing, a rejected
    promise is a thrown value. *)
Inductive outcome (A : Type) : Type :=
  | Return (a : A)
  | Throw (e : thrown).
Arguments Return {A} a.
Arguments Throw {A} e.

Definition M (A : Type) : Type := World -> outcome A * World.

#[global] Instance M_ret : MRet M := fun A a w => (Return a, w).
#[global] Instance M_bind : MBind M := fun A B f c w =>
  match c w with
  | (Return a, w') => f a w'
  | (Throw e, w') => (Throw e, w')
  end.

Definition throw {A} (e : thrown) : M A := fun w => (Throw e, w).

(** [try { body } catch (error) { handler }] *)
Definition try_catch (body : M unit) (handler : thrown -> M unit) : M unit :=
  fun w =>
    match body w with
    | (Return a, w') => (Return a, w')
    | (Throw e, w') => handler e w'
    end.

Definition perform (e : effect) : M unit := fun w =>
  (Return tt,
   mkWorld (file w) (previewUrl w) (contextText w) (analysisState w)
           (report w) (activeTab w) (history w) (effects w ++ [e]) (ticks w)).

Definition lift {A} (r : thrown + A) : M A := fun w =>
  match r with
  | inl e => (Throw e, w)
  | inr a => (Return a, w)
  end.

(** A service touches nothing of the component but performs outside calls:
    its outcome and its calls, read off a run from the initial world. *)
Definition with_effects (w : World) (es : list effect) : World :=
  mkWorld (file w) (previewUrl w) (contextText w) (analysisState w)
          (report w) (activeTab w) (history w) (effects w ++ es) (ticks w).

Definition outcome_of {A} (c : M A) : outcome A := fst (c initialWorld).
Definition effects_of {A} (c : M A) : list effect :=
  effects (snd (c initialWorld)).

(** Line 116: [`[${time}] ${msg}`]. *)
Definition stamp (time msg : string) : string := "[" ++ time ++ "] " ++ msg.

Section Pipeline.

Context (p : Platform).

(** ** State setters of the component *)

Definition setAnalysisState (f : AnalysisState -> AnalysisState) : M unit :=
  fun w =>
    let st := f (analysisState w) in
    (Return tt,
     mkWorld (file w) (previewUrl w) (contextText w) st
             (report w) (activeTab w) (history w ++ [st]) (effects w)
             (ticks w)).

Definition setReport (r : option ForensicReport) : M unit := fun w =>
  (Return tt,
   mkWorld (file w) (previewUrl w) (contextText w) (analysisState w)
           r (activeTab w) (history w) (effects w) (ticks w)).

Definition setActiveTab (t : ModuleTab) : M unit := fun w =>
  (Return tt,
   mkWorld (file w) (previewUrl w) (contextText w) (analysisState w)
           (report w) t (history w) (effects w) (ticks w)).

Definition setFile (f : option File) : M unit := fun w =>
  (Return tt,
   mkWorld f (previewUrl w) (contextText w) (analysisState w)
           (report w) (activeTab w) (history w) (effects w) (ticks w)).

Definition setPreviewUrl (u : option string) : M unit := fun w =>
  (Return tt,
   mkWorld (file w) u (contextText w) (analysisState w)
           (report w) (activeTab w) (history w) (effects w) (ticks w)).

(** [Date.now()] and [new Date()]: the next reading of the clock. *)
Definition Date_now : M N := fun w =>
  (Return (clock p (ticks w)),
   mkWorld (file w) (previewUrl w) (contextText w) (analysisState w)
           (report w) (activeTab w) (history w) (effects w) (S (ticks w))).

(** [await new Promise(r => setTimeout(r, ms))] *)
Definition sleep (ms : N) : M unit := perform (ESetTimeout ms).

(** App.tsx, lines 113-118.  The updater is run when it is queued, so the
    clock is read at the call. *)
Definition addLog (msg : string) : M unit :=
  now ← Date_now;
  setAnalysisState (fun prev =>
    mkState (isAnalyzing prev) (progress prev) (currentStep prev)
            (logs prev ++ [stamp (toLocaleTimeString p now) msg])).

(** App.tsx, lines 120-128; [files] is [e.target.files]. *)
Definition handleFileSelect (files : list File) : M unit :=
  match files with
  | f :: _ =>
      setFile (Some f);;
      setPreviewUrl (Some (createObjectURL p f));;
      setReport None;;
      setAnalysisState (fun _ => mkState false 0 "IDLE" [])
  | [] => mret tt
  end.

(** ** services/geminiService.ts *)

(** Line 4: [process.env.API_KEY || '']. *)
Definition GEMINI_API_KEY : string := default "" (env_API_KEY p).

(** Lines 9-23.  The promise has no reject path. *)
Definition fileToGenerativePart (f : File) : M (option string * string) :=
  perform (EReadAsDataURL f);;
  let base64Data := split_comma_1 (list_ascii_of_string (readAsDataURL p f)) in
  mret (base64Data, file_type f).

(** Line 29: [hashArray.map(b => b.toString(16).padStart(2, '0')).join('')]. *)
Definition hex (hashArray : list N) : string :=
  String.concat "" ((fun b => padStart2 (toString_radix 16 b)) <$> hashArray).

(** Lines 25-30. *)
Definition calculateFileHash (f : File) : M string :=
  perform (EArrayBuffer f);;
  buffer ← lift (arrayBuffer p f);
  perform (EDigest buffer);;
  hashBuffer ← lift (subtle_digest p buffer);
  mret (hex hashBuffer).

(** [obj.key] for the keys the source reads, none of which is a property of
    a prototype: the own property of an object, [undefined] on any other
    value, a TypeError on [null] and [undefined]. *)
Definition field (obj : value) (key : string) : value :=
  match obj with
  | VObj props => default VUndefined (props !! key)
  | _ => VUndefined
  end.

Definition get_prop (obj : value) (key : string) : M value :=
  match obj with
  | VUndefined =>
      throw (ErrorObj "TypeError"
               ("Cannot read properties of undefined (reading '" ++ key ++ "')"))
  | VNull =>
      throw (ErrorObj "TypeError"
               ("Cannot read properties of null (reading '" ++ key ++ "')"))
  | _ => mret (field obj key)
  end.

(** Lines 136-146: the object [analyzeMedia] returns for a parsed response
    whose properties can be read. *)
Definition partialReport (jsonResponse : value) : AiResult :=
  mkAiResult
    (field jsonResponse "authenticityScore")
    (field jsonResponse "isManipulated")
    (field jsonResponse "manipulationType" ||| VArr [])
    (field jsonResponse "ensembleData" ||| VArr [])
    (field jsonResponse "semanticMismatchDetected")
    (field jsonResponse "semanticAnalysisText")
    (field jsonResponse "reasoning")
    (field jsonResponse "suspiciousRegions" ||| VArr [])
    (field jsonResponse "metadata" ||| VObj ∅).

(** The request of lines 67-132 for a file part. *)
Definition request_of (filePart : option string * string)
    (mediaType : MediaType) (contextNarrative : string) : GenRequest :=
  mkGenRequest (fst filePart) (snd filePart) mediaType contextNarrative.

(** Line 134: [response.text || '{}']. *)
Definition text_or_empty (response_text : option string) : string :=
  match response_text with
  | Some t => if String.eqb t "" then "{}" else t
  | None => "{}"
  end.

(** Lines 32-147. *)
Definition analyzeMedia (f : File) (mediaType : MediaType)
    (contextNarrative : string) : M AiResult :=
  if String.eqb GEMINI_API_KEY "" then
    throw (ErrorObj "Error" "API Key is missing.")
  else
    filePart ← fileToGenerativePart f;
    let req := request_of filePart mediaType contextNarrative in
    perform (EGenerateContent req);;
    response_text ← lift (generateContent p req);
    jsonResponse ← lift (JSON_parse p (text_or_empty response_text));
    authenticityScore ← get_prop jsonResponse "authenticityScore";
    isManipulated ← get_prop jsonResponse "isManipulated";
    manipulationType ← get_prop jsonResponse "manipulationType";
    ensembleData ← get_prop jsonResponse "ensembleData";
    semanticMismatchDetected ← get_prop jsonResponse "semanticMismatchDetected";
    semanticAnalysisText ← get_prop jsonResponse "semanticAnalysisText";
    reasoning ← get_prop jsonResponse "reasoning";
    suspiciousRegions ← get_prop jsonResponse "suspiciousRegions";
    metadata ← get_prop jsonResponse "metadata";
    mret (mkAiResult
            authenticityScore
            isManipulated
            (manipulationType ||| VArr [])
            (ensembleData ||| VArr [])
            semanticMismatchDetected
            semanticAnalysisText
            reasoning
            (suspiciousRegions ||| VArr [])
            (metadata ||| VObj ∅)).

(** ** App.tsx: [runAnalysis] *)

(** Lines 153-156. *)
Definition mediaTypeOf (type : string) : MediaType :=
  if String.prefix "image" type then IMAGE
  else if String.prefix "video" type then VIDEO
  else if String.prefix "audio" type then AUDIO
  else UNKNOWN.

(** [{...v}]: the own enumerable properties of [v]: those of an object,
    the indices of an array or of a string, none for other values. *)
Definition spread (v : value) : gmap string value :=
  match v with
  | VObj props => props
  | VArr items =>
      list_to_map (imap (fun i x => (toString (N.of_nat i), x)) items)
  | VStr s =>
      list_to_map (imap (fun i c => (toString (N.of_nat i), VStr (String c "")))
                        (list_ascii_of_string s))
  | _ => ∅
  end.

(** Line 164. *)
Definition case_id (now : N) : string :=
  "CASE-" ++ slice_last 6 (toString now).

(** Lines 163-182, given the two readings of the clock. *)
Definition fullReport (f : File) (type : MediaType) (hash : string)
    (aiResult : AiResult) (now date : N) : ForensicReport :=
  {|
    id := case_id now;
    fileName := file_name f;
    fileType := type;
    timestamp := toISOString p date;
    fileHash := hash;
    authenticityScore := ai_authenticityScore aiResult ||| VNum (Finite 0);
    isManipulated := ai_isManipulated aiResult ||| VBool false;
    manipulationType := ai_manipulationType aiResult;
    ensembleData := ai_ensembleData aiResult ||| VArr [];
    semanticMismatchDetected :=
      ai_semanticMismatchDetected aiResult ||| VBool false;
    semanticAnalysisText := ai_semanticAnalysisText aiResult ||| VStr "";
    reasoning := ai_reasoning aiResult ||| VStr "Analysis failed.";
    suspiciousRegions := ai_suspiciousRegions aiResult ||| VArr [];
    metadata :=
      <["mimeType" := VStr (file_type f)]>
        (<["originalSize" := VStr (mb_toFixed2 (file_size f) ++ " MB")]>
           (spread (ai_metadata aiResult)))
  |}.

Definition buildReport (f : File) (type : MediaType) (hash : string)
    (aiResult : AiResult) : M ForensicReport :=
  now ← Date_now;
  date ← Date_now;
  mret (fullReport f type hash aiResult now date).

(** Lines 136-187, the body of the [try]. *)
Definition runAnalysis_try (f : File) (contextText : string) : M unit :=
  addLog ("Hashing " ++ file_name f ++ " (" ++ mb_toFixed2 (file_size f)
            ++ "MB)...");;
  hash ← calculateFileHash f;
  setAnalysisState (fun prev =>
    mkState (isAnalyzing prev) 20 "HASHING" (logs prev));;
  addLog ("SHA-256: " ++ substring_to 16 hash ++ "...");;
  sleep 600;;
  addLog "Loading FaceForensics++ (Xception) weights...";;
  setAnalysisState (fun prev =>
    mkState (isAnalyzing prev) 40 "LOADING_MODELS" (logs prev));;
  sleep 600;;
  addLog "Initializing DeepFake-o-Matic ensemble...";;
  setAnalysisState (fun prev =>
    mkState (isAnalyzing prev) 50 "LOADING_MODELS" (logs prev));;
  addLog "Sending tensors to analysis engine...";;
  let type := mediaTypeOf (file_type f) in
  aiResult ← analyzeMedia f type contextText;
  setAnalysisState (fun prev =>
    mkState (isAnalyzing prev) 90 "INFERENCE" (logs prev));;
  addLog "Inference complete. Aggregating results...";;
  fullReport ← buildReport f type hash aiResult;
  setReport (Some fullReport);;
  setAnalysisState (fun prev => mkState false 100 "COMPLETE" (logs prev));;
  addLog "Report generated successfully.";;
  setActiveTab DASHBOARD.

(** Lines 189-193, the [catch]. *)
Definition runAnalysis_catch (error : thrown) : M unit :=
  perform (EConsoleError error);;
  addLog ("CRITICAL ERROR: " ++ thrown_toString error);;
  setAnalysisState (fun prev =>
    mkState false (progress prev) (currentStep prev) (logs prev)).

(** Lines 130-194.  [file] and [contextText] are the values of the state
    cells when the handler is invoked. *)
Definition runAnalysis : M unit := fun w =>
  match file w with
  | None => (Return tt, w)
  | Some f =>
      (setAnalysisState (fun _ =>
         mkState true 0 "INIT" ["Initializing core modules..."]);;
       try_catch (runAnalysis_try f (contextText w)) runAnalysis_catch) w
  end.

(** Line 312: the panel holding the button whose [onClick] is
    [runAnalysis] is rendered under this condition only. *)
Definition scan_button_rendered (w : World) : bool :=
  bool_decide (is_Some (file w)) && negb (bool_decide (is_Some (report w)))
  && negb (isAnalyzing (analysisState w)).

(** A click on INITIATE DEEP SCAN: it reaches [runAnalysis] only when the
    button is on the page. *)
Definition click_scan : M unit := fun w =>
  if scan_button_rendered w then runAnalysis w else (Return tt, w).

(** The world a run ends in, and the snapshots of [analysisState] it
    produced. *)
Definition run (w : World) : World := snd (runAnalysis w).

Definition snapshots (w : World) : list AnalysisState :=
  drop (length (history w)) (history (run w)).


(** The log line for [msg] stamped with the [k]-th reading of the clock. *)
Definition log_at (k : nat) (msg : string) : string :=
  stamp (toLocaleTimeString p (clock p k)) msg.

(** The classification call of line 158 for the file. *)
Definition classify (f : File) (contextNarrative : string) : M AiResult :=
  analyzeMedia f (mediaTypeOf (file_type f)) contextNarrative.

(** How the two fallible stages of a run on [f] end. *)
Definition digest_returns (f : File) (h : string) : Prop :=
  outcome_of (calculateFileHash f) = Return h.

Definition digest_throws (f : File) (e : thrown) : Prop :=
  outcome_of (calculateFileHash f) = Throw e.

Definition classification_yields (f : File) (contextNarrative : string)
    (aiResult : AiResult) : Prop :=
  outcome_of (classify f contextNarrative) = Return aiResult.

Definition classification_throws (f : File) (contextNarrative : string)
    (e : thrown) : Prop :=
  outcome_of (classify f contextNarrative) = Throw e.

(** The classification service answers the request for the file with a
    text that [JSON.parse] turns into [payload]. *)
Definition classification_returns (f : File) (contextNarrative : string)
    (payload : value) : Prop :=
  GEMINI_API_KEY ≠ "" ∧
  ∃ response_text,
    generateContent p
      (request_of (split_comma_1 (list_ascii_of_string (readAsDataURL p f)),
                   file_type f)
                  (mediaTypeOf (file_type f)) contextNarrative)
      = inr response_text ∧
    JSON_parse p (text_or_empty response_text) = inr payload.

End Pipeline.


(** The number a list of digits stands for, least significant first. *)
Fixpoint value_le (radix : N) (l : list N) : N :=
  match l with
  | [] => 0
  | d :: l' => d + radix * value_le radix l'
  end.

(** [line] includes [detail]. *)
Definition includes (line detail : string) : Prop :=
  ∃ before after, line = before ++ detail ++ after.

Definition nullish (v : value) : bool :=
  match v with
  | VUndefined | VNull => true
  | _ => false
  end.

(** A number outside the documented range 0..100. *)
Definition out_of_range (n : number) : Prop :=
  match n with
  | NaN => False
  | Infinity _ => True
  | Finite q => (q < 0 ∨ 100 < q)%Q
  end.

(** The two metadata entries the pipeline computes from the file. *)
Definition computed_metadata (f : File) : gmap string value :=
  <["mimeType" := VStr (file_type f)]>
    (<["originalSize" := VStr (mb_toFixed2 (file_size f) ++ " MB")]> ∅).

(** ** Scripted platforms

    Test doubles for the collaborators, as a test harness would inject
    them: the outcome of reading the file, a classification outcome, a
    parser that knows the texts of the scenario, and a clock. *)

Definition sha_bytes : list N :=
  [171; 193; 35; 171; 193; 35; 171; 193; 35; 171; 193; 35; 171; 193; 35; 171;
   193; 35; 171; 193; 35; 171; 193; 35; 171; 193; 35; 171; 193; 35; 171; 193].

Definition scripted (key : option string) (buffer : thrown + list N)
    (response : thrown + option string) (parse : string -> thrown + value)
    (time : nat -> N) : Platform :=
  {| env_API_KEY := key;
     arrayBuffer := fun _ => buffer;
     subtle_digest := fun _ => inr sha_bytes;
     readAsDataURL := fun f => "data:" ++ file_type f ++ ";base64,iVBORw==";
     generateContent := fun _ => response;
     JSON_parse := parse;
     clock := time;
     toLocaleTimeString := fun t => toString (t / 1000);
     toISOString := fun t => toString t;
     createObjectURL := fun f => "blob:" ++ file_name f |}.

Definition png_bytes : list N := [137; 80; 78; 71].

Definition SyntaxError : thrown :=
  ErrorObj "SyntaxError" "Unexpected token < in JSON at position 0".

(** A parser for the two texts a scenario uses: the empty object and one
    payload; any other text is rejected as [JSON.parse] rejects
    ["<html>"]. *)
Definition parse_only (text : string) (v : value) (s : string) : thrown + value :=
  if String.eqb s "{}" then inr (VObj ∅)
  else if String.eqb s text then inr v
  else inl SyntaxError.

Definition sample_png : File :=
  {| file_name := "sample.png"; file_size := 2097152; file_type := "image/png" |}.

(** The double quote character, and a quoted JSON string. *)
Definition dq : string := String (ascii_of_nat 34) EmptyString.
Definition quoted (s : string) : string := dq ++ s ++ dq.

Definition payload_A_text : string :=
  "{" ++ quoted "authenticityScore" ++ ":92,"
      ++ quoted "isManipulated" ++ ":false,"
      ++ quoted "ensembleData" ++ ":[{"
         ++ quoted "modelName" ++ ":" ++ quoted "X" ++ ","
         ++ quoted "score" ++ ":10,"
         ++ quoted "confidence" ++ ":" ++ quoted "LOW" ++ ","
         ++ quoted "focusArea" ++ ":" ++ quoted "noise" ++ "}],"
      ++ quoted "reasoning" ++ ":" ++ quoted "no anomalies" ++ "}".

Definition payload_A : value :=
  VObj (list_to_map
    [("authenticityScore", VNum (Finite 92));
     ("isManipulated", VBool false);
     ("ensembleData",
      VArr [VObj (list_to_map
              [("modelName", VStr "X"); ("score", VNum (Finite 10));
               ("confidence", VStr "LOW"); ("focusArea", VStr "noise")])]);
     ("reasoning", VStr "no anomalies")]).

Definition ticking (start step : N) (k : nat) : N := start + step * N.of_nat k.

(** Scenario A: the service answers with [payload_A]. *)
Definition platform_A : Platform :=
  scripted (Some "key") (inr png_bytes) (inr (Some payload_A_text))
           (parse_only payload_A_text payload_A) (ticking 1700000000000 300).

(** Scenario B: the service rejects with "network timeout". *)
Definition platform_B : Platform :=
  scripted (Some "key") (inr png_bytes) (inl (Rejected "network timeout"))
           (parse_only payload_A_text payload_A) (ticking 1700000000000 300).

(** Scenario C: the service answers with the empty object. *)
Definition platform_C : Platform :=
  scripted (Some "key") (inr png_bytes) (inr (Some "{}"))
           (parse_only payload_A_text payload_A) (ticking 1700000000000 300).

(** The service answers with a text that is not JSON. *)
Definition platform_html : Platform :=
  scripted (Some "key") (inr png_bytes) (inr (Some "<html>"))
           (parse_only payload_A_text payload_A) (ticking 1700000000000 300).

(** The error of line 39. *)
Definition API_key_missing : thrown := ErrorObj "Error" "API Key is missing.".

(** No API key is configured. *)
Definition platform_no_key : Platform :=
  scripted None (inr png_bytes) (inr (Some payload_A_text))
           (parse_only payload_A_text payload_A) (ticking 1700000000000 300).

(** No API key is configured and the file cannot be read. *)
Definition NotReadableError : thrown :=
  ErrorObj "NotReadableError" "The requested file could not be read".

Definition platform_no_key_unreadable : Platform :=
  scripted None (inl NotReadableError) (inr (Some payload_A_text))
           (parse_only payload_A_text payload_A) (ticking 1700000000000 300).





(** A payload with a score of 250 and a region at x = -5, 300 wide. *)
Definition payload_wild_text : string :=
  "{" ++ quoted "authenticityScore" ++ ":250,"
      ++ quoted "suspiciousRegions" ++ ":[{"
         ++ quoted "x" ++ ":-5," ++ quoted "y" ++ ":10,"
         ++ quoted "width" ++ ":300," ++ quoted "height" ++ ":20,"
         ++ quoted "label" ++ ":" ++ quoted "face" ++ ","
         ++ quoted "confidence" ++ ":101}]}".

Definition wild_regions : list value :=
  [VObj (list_to_map
     [("x", VNum (Finite (-5))); ("y", VNum (Finite 10));
      ("width", VNum (Finite 300)); ("height", VNum (Finite 20));
      ("label", VStr "face"); ("confidence", VNum (Finite 101))])].

Definition payload_wild : value :=
  VObj (list_to_map [("authenticityScore", VNum (Finite 250));
                     ("suspiciousRegions", VArr wild_regions)]).

Definition platform_wild : Platform :=
  scripted (Some "key") (inr png_bytes) (inr (Some payload_wild_text))
           (parse_only payload_wild_text payload_wild)
           (ticking 1700000000000 300).

(** The world after the user picked [f] in a fresh session. *)
Definition selected (f : File) : World :=
  snd (handleFileSelect platform_A [f] initialWorld).

(** A session that already holds a report: Scenario A has run. *)
Definition after_scenario_A : World := run platform_A (selected sample_png).

(** A session with two runs: Scenario A on [sample_png], then a second
    file is selected and analysed. *)
Definition second_file : File :=
  {| file_name := "clip.mp4"; file_size := 5242880; file_type := "video/mp4" |}.




(** A run of Scenario A in flight, waiting for the classification: the
    state after the update of line 152. *)
Definition in_flight_state : AnalysisState :=
  mkState true 50 "LOADING_MODELS"
    ["Initializing core modules...";
     "[1700000000] Hashing sample.png (2.00MB)...";
     "[1700000000] SHA-256: abc123abc123abc1...";
     "[1700000000] Loading FaceForensics++ (Xception) weights...";
     "[1700000000] Initializing DeepFake-o-Matic ensemble...";
     "[1700000001] Sending tensors to analysis engine..."].

Definition in_flight : World :=
  mkWorld (Some sample_png) (Some "blob:sample.png") "" in_flight_state
          None DASHBOARD [] [] 5.


(** ** The rest of the view: what is rendered, and the handlers behind it *)

(** constants.ts *)
Definition MAX_FILE_SIZE_MB : N := 50.
Definition SUPPORTED_IMAGE_TYPES : list string :=
  ["image/jpeg"; "image/png"; "image/webp"].
Definition SUPPORTED_VIDEO_TYPES : list string := ["video/mp4"; "video/webm"].
Definition SUPPORTED_AUDIO_TYPES : list string :=
  ["audio/mpeg"; "audio/wav"; "audio/mp3"].

(** App.tsx, line 293: the upload panel, with the only file input of the
    page, is rendered while no file is selected. *)
Definition upload_input_rendered (w : World) : bool :=
  negb (bool_decide (is_Some (file w))).

(** Line 346: the progress panel. *)
Definition progress_panel_rendered (w : World) : bool :=
  isAnalyzing (analysisState w).

(** Line 372: the report dashboard. *)
Definition report_rendered (w : World) : bool :=
  bool_decide (is_Some (report w)) && negb (isAnalyzing (analysisState w)).

(** Line 277: the case id of the header. *)
Definition header_case_id (w : World) : string :=
  match report w with
  | Some r => id r
  | None => "N/A"
  end.

Definition setContextText (s : string) : M unit := fun w =>
  (Return tt,
   mkWorld (file w) (previewUrl w) s (analysisState w)
           (report w) (activeTab w) (history w) (effects w) (ticks w)).

(** Line 250: [() => report && setActiveTab(tab.id)]. *)
Definition click_tab (t : ModuleTab) : M unit := fun w =>
  match report w with
  | Some _ => setActiveTab t w
  | None => (Return tt, w)
  end.

(** Line 306: the [onChange] of the file input fires only while the input
    is on the page. *)
Definition change_file (p : Platform) (files : list File) : M unit := fun w =>
  if upload_input_rendered w then handleFileSelect p files w
  else (Return tt, w).

(** Line 328: the claim textarea sits in the panel of the scan button. *)
Definition change_context (s : string) : M unit := fun w =>
  if scan_button_rendered w then setContextText s w else (Return tt, w).

(** What a user can do on the dashboard. *)
Inductive event : Type :=
  | SelectFiles (files : list File)
  | TypeContext (s : string)
  | ClickScan
  | ClickTab (t : ModuleTab).

Definition handle (p : Platform) (ev : event) : M unit :=
  match ev with
  | SelectFiles files => change_file p files
  | TypeContext s => change_context s
  | ClickScan => click_scan p
  | ClickTab t => click_tab t
  end.

(** The world after the events, each handler run to its end. *)
Fixpoint session (p : Platform) (evs : list event) (w : World) : World :=
  match evs with
  | [] => w
  | ev :: evs' => session p evs' (snd (handle p ev w))
  end.

(** ** AuthScreen *)

Inductive Role : Type := ADMIN | USER.

Record User : Type := mkUser {
  user_id : string;
  user_name : string;
  user_email : string;
  user_role : Role
}.

(** [s.split('@')[0]]: the text before the first [@], all of [s] when it
    has none. *)
Fixpoint before_at (l : list ascii) : list ascii :=
  match l with
  | [] => []
  | c :: l' => if Ascii.eqb c "@" then [] else c :: before_at l'
  end.

(** Lines 28-36: the user [handleSubmit] passes to [onLogin]. *)
Definition handleSubmit (email : string) : User :=
  let local := string_of_list_ascii (before_at (list_ascii_of_string email)) in
  {| user_id := "usr_123456";
     user_name := if String.eqb local "" then "Investigator" else local;
     user_email := email;
     user_role := ADMIN |}.

(** ** Vocabulary of the further properties *)

(** A call to the remote model. *)
Definition is_remote_call (e : effect) : bool :=
  match e with
  | EGenerateContent _ => true
  | _ => false
  end.

(** The outside calls a run started in [w] makes. *)
Definition run_effects (p : Platform) (w : World) : list effect :=
  drop (length (effects w)) (effects (run p w)).

(** Consecutive repetitions removed from a sequence of stage labels. *)
Fixpoint labels_in_order (l : list string) : list string :=
  match l with
  | [] => []
  | x :: l' =>
      match l' with
      | y :: _ =>
          if String.eqb x y then labels_in_order l' else x :: labels_in_order l'
      | [] => [x]
      end
  end.

(** Each log of a sequence of states is a prefix of the next one. *)
Fixpoint growing (l : list AnalysisState) : Prop :=
  match l with
  | a :: l' =>
      match l' with
      | b :: _ => logs a `prefix_of` logs b ∧ growing l'
      | [] => True
      end
  | [] => True
  end.

(** What holds of the dashboard between two events: no run is in flight,
    a report on screen is the report of the selected file, and the tabs
    stay on the first one until there is a report. *)
Definition session_invariant (w : World) : Prop :=
  isAnalyzing (analysisState w) = false ∧
  (∀ r, report w = Some r →
        ∃ f, file w = Some f ∧
             fileName r = file_name f ∧
             fileType r = mediaTypeOf (file_type f) ∧
             metadata r !! "mimeType" = Some (VStr (file_type f))) ∧
  (report w = None → activeTab w = DASHBOARD).

Definition at_free (s : string) : Prop :=
  Forall (fun c => c ≠ "@"%char) (list_ascii_of_string s).

Definition comma_free (s : string) : Prop :=
  Forall (fun c => c ≠ ","%char) (list_ascii_of_string s).

(** A file the user picked and a failing read of it, for the scenarios. *)
Definition big_pdf : File :=
  {| file_name := "scan.pdf"; file_size := 62914560;
     file_type := "application/pdf" |}.

Definition platform_unreadable : Platform :=
  scripted (Some "key") (inl NotReadableError) (inr (Some payload_A_text))
           (parse_only payload_A_text payload_A) (ticking 1700000000000 300).

(** The service answers with an empty body, or with the text [null]. *)
Definition platform_empty_body : Platform :=
  scripted (Some "key") (inr png_bytes) (inr (Some ""))
           (parse_only payload_A_text payload_A) (ticking 1700000000000 300).

Definition platform_null : Platform :=
  scripted (Some "key") (inr png_bytes) (inr (Some "null"))
           (parse_only "null" VNull) (ticking 1700000000000 300).

(** * Theorems *)

(** ** The services leave the component state alone *)

Section Services.

Context (p : Platform).

Lemma with_effects_nil w : with_effects w [] = w.
Proof. destruct w; unfold with_effects; cbn. by rewrite app_nil_r. Qed.

Lemma calculateFileHash_service f w :
  calculateFileHash p f w
  = (outcome_of (calculateFileHash p f),
     with_effects w (effects_of (calculateFileHash p f))).
Proof.
  unfold outcome_of, effects_of, calculateFileHash, with_effects.
  cbn. unfold mbind, M_bind, lift, perform. cbn.
  destruct (arrayBuffer p f) as [e|buffer]; cbn; [done|].
  destruct (subtle_digest p buffer) as [e|hashBuffer]; cbn;
    by rewrite <- app_assoc.
Qed.

Lemma get_prop_field obj key w :
  nullish obj = false → get_prop obj key w = (Return (field obj key), w).
Proof. by destruct obj. Qed.

Lemma analyzeMedia_service f t ctx w :
  analyzeMedia p f t ctx w
  = (outcome_of (analyzeMedia p f t ctx),
     with_effects w (effects_of (analyzeMedia p f t ctx))).
Proof.
  unfold outcome_of, effects_of, analyzeMedia.
  destruct (String.eqb (GEMINI_API_KEY p) "").
  { cbn. by rewrite with_effects_nil. }
  unfold fileToGenerativePart, with_effects.
  cbn. unfold mbind, M_bind, lift, perform. cbn.
  destruct (generateContent p _) as [e|text]; cbn;
    [by rewrite <- app_assoc|].
  destruct (JSON_parse p _) as [e|json]; cbn;
    [by rewrite <- app_assoc|].
  destruct (nullish json) eqn:Hn.
  - destruct json; try discriminate Hn; cbn; by rewrite <- app_assoc.
  - repeat (rewrite get_prop_field by done; cbn).
    unfold mret, M_ret. by rewrite <- app_assoc.
Qed.

(** Without a key nothing is read and nothing is sent. *)
Lemma analyzeMedia_no_key f t ctx w :
  GEMINI_API_KEY p = "" →
  analyzeMedia p f t ctx w = (Throw (ErrorObj "Error" "API Key is missing."), w).
Proof. intros Hk. unfold analyzeMedia. by rewrite Hk. Qed.

(** A payload whose properties can be read comes back as
    [partialReport]. *)
Lemma analyzeMedia_returns f ctx payload :
  classification_returns p f ctx payload →
  nullish payload = false →
  outcome_of (classify p f ctx) = Return (partialReport payload).
Proof.
  intros [Hk (text & Hgen & Hparse)] Hn.
  unfold outcome_of, classify, analyzeMedia.
  apply String.eqb_neq in Hk. rewrite Hk.
  unfold fileToGenerativePart.
  cbn. unfold mbind, M_bind, lift, perform. cbn.
  rewrite Hgen. cbn. rewrite Hparse. cbn.
  by repeat (rewrite get_prop_field by done; cbn).
Qed.

(** A text [JSON.parse] rejects makes the call reject with that error. *)
Lemma analyzeMedia_parse_error f ctx response_text e :
  GEMINI_API_KEY p ≠ "" →
  generateContent p
    (request_of (split_comma_1 (list_ascii_of_string (readAsDataURL p f)),
                 file_type f)
                (mediaTypeOf (file_type f)) ctx) = inr response_text →
  JSON_parse p (text_or_empty response_text) = inl e →
  outcome_of (classify p f ctx) = Throw e.
Proof.
  intros Hk Hgen Hparse.
  unfold outcome_of, classify, analyzeMedia.
  apply String.eqb_neq in Hk. rewrite Hk.
  unfold fileToGenerativePart.
  cbn. unfold mbind, M_bind, lift, perform. cbn.
  rewrite Hgen. cbn. by rewrite Hparse.
Qed.

End Services.

(** ** The three ways a run ends *)

(** Symbolic evaluation of the pipeline, call by value so that every world
    is normalised before the next setter copies it. *)
Ltac crunch :=
  cbv -[calculateFileHash analyzeMedia mb_toFixed2 substring_to String.append
        thrown_toString fullReport mediaTypeOf outcome_of effects_of app
        clock toLocaleTimeString toISOString file_name file_size file_type
        stamp].

Ltac flatten := repeat rewrite <- app_assoc; cbn [app].

Section Runs.
Context (p : Platform).

Lemma run_digest_failure w f e :
  file w = Some f →
  digest_throws p f e →
  let t := ticks w in
  let l1 := ["Initializing core modules..."] in
  let l2 := (l1 ++ [log_at p t ("Hashing " ++ file_name f ++ " ("
                     ++ mb_toFixed2 (file_size f) ++ "MB)...")])%list in
  let l3 := (l2 ++ [log_at p (S t) ("CRITICAL ERROR: " ++ thrown_toString e)])%list in
  run p w =
    mkWorld (file w) (previewUrl w) (contextText w)
      (mkState false 0 "INIT" l3) (report w) (activeTab w)
      (history w ++ [mkState true 0 "INIT" l1; mkState true 0 "INIT" l2;
                     mkState true 0 "INIT" l3; mkState false 0 "INIT" l3])
      (effects w ++ effects_of (calculateFileHash p f) ++ [EConsoleError e])
      (S (S t)).
Proof.
  intros Hf Hh.
  destruct w as [fi pu ct st rp tab hist effs tk]. cbn in Hf. subst fi.
  unfold run, runAnalysis, digest_throws in *.
  crunch.
  rewrite calculateFileHash_service, Hh.
  crunch. flatten. reflexivity.
Qed.

Lemma run_classification_failure w f h e :
  file w = Some f →
  digest_returns p f h →
  classification_throws p f (contextText w) e →
  let t := ticks w in
  let l1 := ["Initializing core modules..."] in
  let l2 := (l1 ++ [log_at p t ("Hashing " ++ file_name f ++ " ("
                     ++ mb_toFixed2 (file_size f) ++ "MB)...")])%list in
  let l3 := (l2 ++ [log_at p (1 + t) ("SHA-256: " ++ substring_to 16 h ++ "...")])%list in
  let l4 := (l3 ++ [log_at p (2 + t) "Loading FaceForensics++ (Xception) weights..."])%list in
  let l5 := (l4 ++ [log_at p (3 + t) "Initializing DeepFake-o-Matic ensemble..."])%list in
  let l6 := (l5 ++ [log_at p (4 + t) "Sending tensors to analysis engine..."])%list in
  let l7 := (l6 ++ [log_at p (5 + t) ("CRITICAL ERROR: " ++ thrown_toString e)])%list in
  run p w =
    mkWorld (file w) (previewUrl w) (contextText w)
      (mkState false 50 "LOADING_MODELS" l7) (report w) (activeTab w)
      (history w ++
         [mkState true 0 "INIT" l1; mkState true 0 "INIT" l2;
          mkState true 20 "HASHING" l2; mkState true 20 "HASHING" l3;
          mkState true 20 "HASHING" l4; mkState true 40 "LOADING_MODELS" l4;
          mkState true 40 "LOADING_MODELS" l5;
          mkState true 50 "LOADING_MODELS" l5;
          mkState true 50 "LOADING_MODELS" l6;
          mkState true 50 "LOADING_MODELS" l7;
          mkState false 50 "LOADING_MODELS" l7])
      (effects w ++ effects_of (calculateFileHash p f)
         ++ [ESetTimeout 600; ESetTimeout 600]
         ++ effects_of (classify p f (contextText w)) ++ [EConsoleError e])
      (6 + t)%nat.
Proof.
  intros Hf Hh Hc.
  destruct w as [fi pu ct st rp tab hist effs tk]. cbn in Hf. subst fi.
  unfold digest_returns, classification_yields, classification_throws in *.
  unfold run, runAnalysis, classify in *.
  cbn [contextText] in Hc.
  crunch.
  rewrite calculateFileHash_service, Hh.
  crunch.
  rewrite analyzeMedia_service, Hc.
  crunch. flatten. reflexivity.
Qed.

Lemma run_success w f h ai :
  file w = Some f →
  digest_returns p f h →
  classification_yields p f (contextText w) ai →
  let t := ticks w in
  let l1 := ["Initializing core modules..."] in
  let l2 := (l1 ++ [log_at p t ("Hashing " ++ file_name f ++ " ("
                     ++ mb_toFixed2 (file_size f) ++ "MB)...")])%list in
  let l3 := (l2 ++ [log_at p (1 + t) ("SHA-256: " ++ substring_to 16 h ++ "...")])%list in
  let l4 := (l3 ++ [log_at p (2 + t) "Loading FaceForensics++ (Xception) weights..."])%list in
  let l5 := (l4 ++ [log_at p (3 + t) "Initializing DeepFake-o-Matic ensemble..."])%list in
  let l6 := (l5 ++ [log_at p (4 + t) "Sending tensors to analysis engine..."])%list in
  let l7 := (l6 ++ [log_at p (5 + t) "Inference complete. Aggregating results..."])%list in
  let l8 := (l7 ++ [log_at p (8 + t) "Report generated successfully."])%list in
  run p w =
    mkWorld (file w) (previewUrl w) (contextText w)
      (mkState false 100 "COMPLETE" l8)
      (Some (fullReport p f (mediaTypeOf (file_type f)) h ai
                        (clock p (6 + t)) (clock p (7 + t))))
      DASHBOARD
      (history w ++
         [mkState true 0 "INIT" l1; mkState true 0 "INIT" l2;
          mkState true 20 "HASHING" l2; mkState true 20 "HASHING" l3;
          mkState true 20 "HASHING" l4; mkState true 40 "LOADING_MODELS" l4;
          mkState true 40 "LOADING_MODELS" l5;
          mkState true 50 "LOADING_MODELS" l5;
          mkState true 50 "LOADING_MODELS" l6;
          mkState true 90 "INFERENCE" l6;
          mkState true 90 "INFERENCE" l7;
          mkState false 100 "COMPLETE" l7;
          mkState false 100 "COMPLETE" l8])
      (effects w ++ effects_of (calculateFileHash p f)
         ++ [ESetTimeout 600; ESetTimeout 600]
         ++ effects_of (classify p f (contextText w)))
      (9 + t)%nat.
Proof.
  intros Hf Hh Hc.
  destruct w as [fi pu ct st rp tab hist effs tk]. cbn in Hf. subst fi.
  unfold digest_returns, classification_yields, classification_throws in *.
  unfold run, runAnalysis, classify in *.
  cbn [contextText] in Hc.
  crunch.
  rewrite calculateFileHash_service, Hh.
  crunch.
  rewrite analyzeMedia_service, Hc.
  crunch. flatten. reflexivity.
Qed.

End Runs.

(** ** Text *)

Lemma append_assoc (a b c : string) : (a ++ b) ++ c = a ++ (b ++ c).
Proof.
  induction a as [|x a IH]; [done|].
  change (String x ((a ++ b) ++ c) = String x (a ++ (b ++ c))).
  by rewrite IH.
Qed.

Lemma append_empty_r (a : string) : a ++ "" = a.
Proof.
  induction a as [|x a IH]; [done|].
  change (String x (a ++ "") = String x a). by rewrite IH.
Qed.

Lemma stamp_includes time label detail :
  includes (stamp time (label ++ detail)) detail.
Proof.
  exists ("[" ++ time ++ "] " ++ label), "".
  unfold stamp. by rewrite append_empty_r, !append_assoc.
Qed.

(** ** Scenario A *)

Example scenario_A :
  ∃ r, report (run platform_A (selected sample_png)) = Some r ∧
    authenticityScore r = VNum (Finite 92) ∧
    isManipulated r = VBool false ∧
    metadata r !! "mimeType" = Some (VStr "image/png") ∧
    metadata r !! "originalSize" = Some (VStr "2.00 MB") ∧
    suspiciousRegions r = VArr [] ∧
    manipulationType r = VArr [] ∧
    fileHash r
      = "abc123abc123abc123abc123abc123abc123abc123abc123abc123abc123abc1".
Proof. eexists. split; [vm_compute; reflexivity|]. repeat split. Qed.

(** ** Failure of a stage *)

(** C1, as stated, fails in Scenario B: the classification service rejects
    with "network timeout", the run ends with [isAnalyzing] false and the
    error in the log, but [currentStep] keeps the label it had when the
    call was made; the label FAILED is never set. *)
Lemma scenario_B_stage_is_not_FAILED :
  classification_throws platform_B sample_png "" (Rejected "network timeout") ∧
  currentStep (analysisState (run platform_B (selected sample_png)))
    = "LOADING_MODELS" ∧
  currentStep (analysisState (run platform_B (selected sample_png)))
    ≠ "FAILED".
Proof. split; [|split]; [vm_compute; reflexivity ..|]. by vm_compute. Qed.

(** How a failed run ends; the stage label is the one set before the
    failing call. *)
Lemma failed_run_outcome p w f e :
  file w = Some f →
  digest_throws p f e ∨
    (∃ h, digest_returns p f h ∧ classification_throws p f (contextText w) e) →
  isAnalyzing (analysisState (run p w)) = false ∧
  (∃ line, last (logs (analysisState (run p w))) = Some line ∧
           includes line (thrown_toString e)) ∧
  report (run p w) = report w.
Proof.
  intros Hf [Hd | (h & Hd & Hc)].
  - rewrite (run_digest_failure p w f e Hf Hd). cbn.
    repeat split. eexists. split; [reflexivity|]. apply stamp_includes.
  - rewrite (run_classification_failure p w f h e Hf Hd Hc). cbn.
    repeat split. eexists. split; [reflexivity|]. apply stamp_includes.
Qed.

(** C1 (amended): when the digest or the classification throws [e], the
    run ends with [isAnalyzing] false, its last log line is the CRITICAL
    ERROR line that includes the text of [e], and the report cell is left
    as it was; [currentStep] is not changed by the failure: it stays INIT
    after a digest failure and LOADING_MODELS after a classification
    failure. *)
Theorem failed_run_is_logged_and_stops p w f e :
  file w = Some f →
  digest_throws p f e ∨
    (∃ h, digest_returns p f h ∧ classification_throws p f (contextText w) e) →
  let st := analysisState (run p w) in
  isAnalyzing st = false ∧
  (∃ line, last (logs st) = Some line ∧ includes line (thrown_toString e)) ∧
  report (run p w) = report w ∧
  currentStep st = match outcome_of (calculateFileHash p f) with
                   | Throw _ => "INIT"
                   | Return _ => "LOADING_MODELS"
                   end.
Proof.
  intros Hf [Hd | (h & Hd & Hc)].
  - rewrite (run_digest_failure p w f e Hf Hd). cbn.
    rewrite Hd. repeat split; [|done ..].
    eexists. split; [reflexivity|]. apply stamp_includes.
  - rewrite (run_classification_failure p w f h e Hf Hd Hc). cbn.
    rewrite Hd. repeat split; [|done ..].
    eexists. split; [reflexivity|]. apply stamp_includes.
Qed.

Lemma failed_run_is_logged_and_stops_scenario_B :
  let st := analysisState (run platform_B (selected sample_png)) in
  isAnalyzing st = false ∧
  (∃ line, last (logs st) = Some line ∧ includes line "network timeout") ∧
  report (run platform_B (selected sample_png)) = None ∧
  currentStep st = "LOADING_MODELS".
Proof.
  apply (failed_run_is_logged_and_stops platform_B (selected sample_png)
           sample_png (Rejected "network timeout")).
  - reflexivity.
  - right. exists (hex sha_bytes). split; vm_compute; reflexivity.
Defined.

(** C7: a run whose classification fails after a successful digest leaves
    the report cell exactly as it found it. *)
Theorem failed_classification_keeps_report p w f h e :
  file w = Some f →
  digest_returns p f h →
  classification_throws p f (contextText w) e →
  report (run p w) = report w.
Proof.
  intros Hf Hd Hc. by rewrite (run_classification_failure p w f h e Hf Hd Hc).
Qed.

Lemma failed_classification_keeps_report_after_A :
  is_Some (report after_scenario_A) ∧
  report (run platform_B after_scenario_A) = report after_scenario_A.
Proof.
  split.
  - vm_compute. eauto.
  - apply (failed_classification_keeps_report platform_B after_scenario_A
             sample_png (hex sha_bytes) (Rejected "network timeout"));
      vm_compute; reflexivity.
Defined.

(** ** Progress *)




(** ** The published report *)

Section Published.

Context (p : Platform) (w : World) (f : File) (h : string) (payload : value).
Hypothesis Hfile : file w = Some f.
Hypothesis Hdigest : digest_returns p f h.
Hypothesis Hclassified : classification_returns p f (contextText w) payload.
Hypothesis Hreadable : nullish payload = false.

(** The report of a run whose payload can be read. *)
Lemma run_publishes :
  report (run p w)
  = Some (fullReport p f (mediaTypeOf (file_type f)) h (partialReport payload)
            (clock p (6 + ticks w)) (clock p (7 + ticks w))).
Proof.
  pose proof (analyzeMedia_returns p f _ payload Hclassified Hreadable) as Hc.
  by rewrite (run_success p w f h _ Hfile Hdigest Hc).
Qed.

End Published.


Lemma truthy_out_of_range n d : out_of_range n → VNum n ||| d = VNum n.
Proof.
  destruct n as [| |q]; cbn; [done|done|]. intros Hq. unfold js_or. cbn.
  destruct (Qeq_bool q 0) eqn:E; [|done].
  apply Qeq_bool_iff in E. rewrite E in Hq. destruct Hq as [Hq|Hq]; by vm_compute in Hq.
Qed.





(** C9: a score outside 0..100 is published as it came, and so are the
    arrays of regions and of model verdicts, whatever numbers they hold:
    nothing is clamped. *)
Theorem out_of_range_values_pass_through p w f h payload :
  file w = Some f →
  digest_returns p f h →
  classification_returns p f (contextText w) payload →
  nullish payload = false →
  ∃ r, report (run p w) = Some r ∧
    (∀ n, field payload "authenticityScore" = VNum n → out_of_range n →
          authenticityScore r = VNum n) ∧
    (∀ regions, field payload "suspiciousRegions" = VArr regions →
                suspiciousRegions r = VArr regions) ∧
    (∀ models, field payload "ensembleData" = VArr models →
               ensembleData r = VArr models).
Proof.
  intros Hf Hd Hc Hn. eexists. split; [by apply run_publishes|].
  cbn [fullReport partialReport authenticityScore suspiciousRegions
       ensembleData ai_authenticityScore ai_suspiciousRegions ai_ensembleData].
  split; [|split].
  - intros n -> Hout. by apply truthy_out_of_range.
  - by intros regions ->.
  - by intros models ->.
Qed.

Lemma out_of_range_values_pass_through_sample :
  out_of_range (Finite 250) ∧
  ∃ r, report (run platform_wild (selected sample_png)) = Some r ∧
    authenticityScore r = VNum (Finite 250) ∧
    suspiciousRegions r = VArr wild_regions.
Proof.
  split; [right; by vm_compute|].
  destruct (out_of_range_values_pass_through platform_wild
              (selected sample_png) sample_png (hex sha_bytes) payload_wild)
    as (r & Hr & Hscore & Hregions & _).
  - reflexivity.
  - vm_compute. reflexivity.
  - split; [by vm_compute|].
    exists (Some payload_wild_text). split; vm_compute; reflexivity.
  - reflexivity.
  - exists r. split; [exact Hr|]. split.
    + apply Hscore; [vm_compute; reflexivity|right; by vm_compute].
    + apply Hregions. vm_compute. reflexivity.
Defined.

(** ** Responses that are not JSON *)

Lemma text_or_empty_nonempty t : t ≠ "" → text_or_empty (Some t) = t.
Proof. intros Ht. cbn. apply String.eqb_neq in Ht. by rewrite Ht. Qed.

(** C5, as stated, fails: the service answers "<html>", [JSON.parse]
    rejects it, and the run fails with the SyntaxError in its log and no
    report; the text is not replaced by the empty object. *)
Lemma html_response_fails_the_run :
  generateContent platform_html
    (request_of (Some "iVBORw==", "image/png") IMAGE "") = inr (Some "<html>") ∧
  JSON_parse platform_html "<html>" = inl SyntaxError ∧
  report (run platform_html (selected sample_png)) = None ∧
  last (logs (analysisState (run platform_html (selected sample_png))))
    = Some ("[1700000001] CRITICAL ERROR: SyntaxError: "
              ++ "Unexpected token < in JSON at position 0").
Proof. repeat split; vm_compute; reflexivity. Qed.

(** C5 (amended): only an absent or empty response text is read as the
    empty object; a non-empty text that [JSON.parse] rejects with [e]
    makes [analyzeMedia] reject with [e], and the run fails: the error is
    logged, [isAnalyzing] is false and the report cell is untouched. *)
Theorem unparseable_response_fails_the_run p w f h t e :
  file w = Some f →
  digest_returns p f h →
  GEMINI_API_KEY p ≠ "" →
  generateContent p
    (request_of (split_comma_1 (list_ascii_of_string (readAsDataURL p f)),
                 file_type f)
                (mediaTypeOf (file_type f)) (contextText w)) = inr (Some t) →
  t ≠ "" →
  JSON_parse p t = inl e →
  text_or_empty None = "{}" ∧ text_or_empty (Some "") = "{}" ∧
  classification_throws p f (contextText w) e ∧
  isAnalyzing (analysisState (run p w)) = false ∧
  (∃ line, last (logs (analysisState (run p w))) = Some line ∧
           includes line (thrown_toString e)) ∧
  report (run p w) = report w.
Proof.
  intros Hf Hd Hk Hgen Ht Hparse.
  assert (classification_throws p f (contextText w) e) as Hc.
  { apply (analyzeMedia_parse_error p f _ (Some t)); [done|done|].
    by rewrite text_or_empty_nonempty. }
  split; [done|]. split; [done|]. split; [done|].
  destruct (failed_run_outcome p w f e Hf) as (H1 & H2 & H3); [eauto|done].
Qed.

Lemma unparseable_response_fails_the_run_html :
  text_or_empty None = "{}" ∧ text_or_empty (Some "") = "{}" ∧
  classification_throws platform_html sample_png "" SyntaxError ∧
  isAnalyzing (analysisState (run platform_html (selected sample_png))) = false ∧
  (∃ line,
     last (logs (analysisState (run platform_html (selected sample_png))))
       = Some line ∧
     includes line (thrown_toString SyntaxError)) ∧
  report (run platform_html (selected sample_png)) = None.
Proof.
  apply (unparseable_response_fails_the_run platform_html
           (selected sample_png) sample_png (hex sha_bytes) "<html>"
           SyntaxError); by vm_compute.
Defined.

(** ** Starting a run *)

(** Whatever the services do, the first snapshot of a run is the INIT
    state: [runAnalysis] looks at [file] only. *)
Lemma first_snapshot_is_INIT p w f :
  file w = Some f →
  head (snapshots p w)
  = Some (mkState true 0 "INIT" ["Initializing core modules..."]).
Proof.
  intros Hf. unfold snapshots.
  destruct (outcome_of (calculateFileHash p f)) as [h|e] eqn:Hd.
  - destruct (outcome_of (classify p f (contextText w))) as [ai|e] eqn:Hc.
    + rewrite (run_success p w f h ai Hf Hd Hc). cbn [history].
      by rewrite drop_app_length.
    + rewrite (run_classification_failure p w f h e Hf Hd Hc). cbn [history].
      by rewrite drop_app_length.
  - rewrite (run_digest_failure p w f e Hf Hd). cbn [history].
    by rewrite drop_app_length.
Qed.

(** C2, as stated, fails: [in_flight_state] is a state a run of Scenario
    A goes through, with [isAnalyzing] true and progress 50; invoking
    [runAnalysis] in it replaces it by the INIT state, with progress 0
    and a log of one line. *)
Lemma second_start_resets_in_flight_state :
  snapshots platform_A (selected sample_png) !! 8%nat = Some in_flight_state ∧
  isAnalyzing (analysisState in_flight) = true ∧
  progress (analysisState in_flight) = 50 ∧
  head (snapshots platform_A in_flight)
    = Some (mkState true 0 "INIT" ["Initializing core modules..."]).
Proof. repeat split; vm_compute; reflexivity. Qed.

(** C2 (amended): while [isAnalyzing] is true the button that starts a
    run is not rendered, so a click does nothing to the state; the
    function [runAnalysis] itself has no such guard: called with a file
    selected, it first replaces the state by the INIT state. *)
Theorem start_is_guarded_by_the_view_only p w :
  isAnalyzing (analysisState w) = true →
  scan_button_rendered w = false ∧
  click_scan p w = (Return tt, w) ∧
  ∀ f, file w = Some f →
       head (snapshots p w)
       = Some (mkState true 0 "INIT" ["Initializing core modules..."]).
Proof.
  intros Hrun.
  assert (scan_button_rendered w = false) as Hhidden.
  { unfold scan_button_rendered. rewrite Hrun. by rewrite andb_false_r. }
  split; [done|]. split.
  - unfold click_scan. by rewrite Hhidden.
  - intros f. apply first_snapshot_is_INIT.
Qed.

Lemma start_is_guarded_by_the_view_only_in_flight :
  scan_button_rendered in_flight = false ∧
  click_scan platform_A in_flight = (Return tt, in_flight) ∧
  ∀ f, file in_flight = Some f →
       head (snapshots platform_A in_flight)
       = Some (mkState true 0 "INIT" ["Initializing core modules..."]).
Proof.
  apply (start_is_guarded_by_the_view_only platform_A in_flight). reflexivity.
Defined.

(** ** A missing API key *)

(** C10, as stated, fails: with no key configured and a file that cannot
    be read, the run fails in the digest, before the classification is
    called: the log ends with the digest error and [currentStep] is
    INIT. *)
Lemma unreadable_file_fails_before_the_key_check :
  GEMINI_API_KEY platform_no_key_unreadable = "" ∧
  digest_throws platform_no_key_unreadable sample_png NotReadableError ∧
  logs (analysisState (run platform_no_key_unreadable (selected sample_png)))
    = ["Initializing core modules...";
       "[1700000000] Hashing sample.png (2.00MB)...";
       "[1700000000] CRITICAL ERROR: NotReadableError: "
         ++ "The requested file could not be read"] ∧
  currentStep
    (analysisState (run platform_no_key_unreadable (selected sample_png)))
    = "INIT".
Proof. repeat split; vm_compute; reflexivity. Qed.

(** C10 (amended): with an empty key [analyzeMedia] throws "API Key is
    missing." and performs no outside call; a run whose digest succeeds
    then fails in that call, whatever the file: the error is the last log
    line, [currentStep] is still LOADING_MODELS with progress 50, no
    report is published, and the only outside calls of the run are those
    of the digest, the two pauses and [console.error]. *)
Theorem missing_key_fails_the_classification p :
  GEMINI_API_KEY p = "" →
  (∀ f t ctx w, analyzeMedia p f t ctx w = (Throw API_key_missing, w)) ∧
  (∀ w f h, file w = Some f → digest_returns p f h →
     let st := analysisState (run p w) in
     isAnalyzing st = false ∧
     last (logs st)
       = Some (log_at p (5 + ticks w)
                 "CRITICAL ERROR: Error: API Key is missing.") ∧
     currentStep st = "LOADING_MODELS" ∧
     progress st = 50 ∧
     report (run p w) = report w ∧
     effects (run p w)
       = (effects w ++ effects_of (calculateFileHash p f)
            ++ [ESetTimeout 600; ESetTimeout 600;
                EConsoleError API_key_missing])%list).
Proof.
  intros Hk. split.
  - intros f t ctx w. by apply analyzeMedia_no_key.
  - intros w f h Hf Hd.
    assert (classify p f (contextText w) initialWorld
            = (Throw API_key_missing, initialWorld)) as Hrun
      by (by apply analyzeMedia_no_key).
    assert (classification_throws p f (contextText w) API_key_missing) as Hc
      by (unfold classification_throws, outcome_of; by rewrite Hrun).
    assert (effects_of (classify p f (contextText w)) = []) as Hnone
      by (unfold effects_of; by rewrite Hrun).
    rewrite (run_classification_failure p w f h _ Hf Hd Hc).
    rewrite Hnone. cbn. repeat split.
Qed.

Lemma missing_key_fails_the_classification_sample :
  analyzeMedia platform_no_key sample_png IMAGE "" (selected sample_png)
    = (Throw API_key_missing, selected sample_png) ∧
  let st := analysisState (run platform_no_key (selected sample_png)) in
  isAnalyzing st = false ∧
  last (logs st)
    = Some "[1700000001] CRITICAL ERROR: Error: API Key is missing." ∧
  currentStep st = "LOADING_MODELS" ∧
  progress st = 50 ∧
  report (run platform_no_key (selected sample_png)) = None ∧
  effects (run platform_no_key (selected sample_png))
    = [EArrayBuffer sample_png; EDigest png_bytes;
       ESetTimeout 600; ESetTimeout 600; EConsoleError API_key_missing].
Proof.
  destruct (missing_key_fails_the_classification platform_no_key eq_refl)
    as [Hthrow Hrun].
  split; [apply Hthrow|].
  apply (Hrun (selected sample_png) sample_png (hex sha_bytes)); reflexivity.
Defined.

(** ** Decimal text of a number *)

Section Digits.

Context (radix : N).
Hypothesis Hradix : 2 ≤ radix.

Lemma digits_le_enough fuel fuel' n :
  n < 2 ^ N.of_nat (S fuel) → n < 2 ^ N.of_nat (S fuel') →
  digits_le radix (S fuel) n = digits_le radix (S fuel') n.
Proof.
  revert fuel' n. induction fuel as [|fuel IH]; intros fuel' n H1 H2.
  - assert ((n <? radix) = true) as Hlt by (apply N.ltb_lt; cbn in H1; lia).
    cbn. by rewrite Hlt.
  - cbn [digits_le]. destruct (n <? radix) eqn:Hlt; [done|].
    apply N.ltb_ge in Hlt. f_equal.
    destruct fuel' as [|fuel']; [cbn in H2; lia|].
    rewrite Nat2N.inj_succ, N.pow_succ_r' in H1, H2.
    apply IH; apply N.Div0.div_lt_upper_bound; nia.
Qed.

Lemma pow2_succ_log2 n : n < 2 ^ N.succ (N.log2 n).
Proof.
  destruct (N.eq_dec n 0) as [->|Hn]; [done|].
  apply N.log2_spec. lia.
Qed.

Lemma digits_unfold n :
  digits radix n
  = if n <? radix then [n] else n mod radix :: digits radix (n / radix).
Proof.
  unfold digits. cbn [digits_le]. destruct (n <? radix) eqn:Hlt; [done|].
  apply N.ltb_ge in Hlt. f_equal.
  pose proof (pow2_succ_log2 n) as Hn.
  pose proof (pow2_succ_log2 (n / radix)) as Hq.
  assert (0 < N.log2 n) as Hpos by (apply N.log2_pos; lia).
  destruct (N.to_nat (N.log2 n)) as [|k] eqn:Hk; [lia|].
  assert (N.log2 n = N.succ (N.of_nat k)) as Hlog by lia.
  apply digits_le_enough.
  - rewrite Nat2N.inj_succ. rewrite <- Hlog.
    rewrite N.pow_succ_r' in Hn.
    apply N.Div0.div_lt_upper_bound. nia.
  - by rewrite Nat2N.inj_succ, N2Nat.id.
Qed.

Lemma digits_le_bounded fuel n : Forall (λ d, d < radix) (digits_le radix fuel n).
Proof.
  revert n. induction fuel as [|fuel IH]; intros n; cbn; [constructor|].
  destruct (n <? radix) eqn:Hlt.
  - apply N.ltb_lt in Hlt. by repeat constructor.
  - constructor; [|apply IH]. apply N.mod_upper_bound. lia.
Qed.

Lemma digits_bounded n : Forall (λ d, d < radix) (digits radix n).
Proof. apply digits_le_bounded. Qed.

(** The first [k] digits are the number modulo [radix ^ k]. *)
Lemma take_digits_value k n :
  value_le radix (take k (digits radix n)) = n mod radix ^ N.of_nat k.
Proof.
  revert n. induction k as [|k IH]; intros n.
  - cbn. by rewrite N.mod_1_r.
  - rewrite digits_unfold. rewrite Nat2N.inj_succ, N.pow_succ_r'.
    destruct (n <? radix) eqn:Hlt.
    + apply N.ltb_lt in Hlt. cbn.
      assert (0 < radix ^ N.of_nat k) by (apply N.neq_0_lt_0, N.pow_nonzero; lia).
      rewrite N.mod_small by nia. rewrite take_nil. cbn. lia.
    + cbn [take value_le]. rewrite IH. by rewrite N.Div0.mod_mul_r.
Qed.

End Digits.

Lemma digit_char_decimal d : d < 10 → N_of_ascii (digit_char d) = 48 + d.
Proof.
  intros Hd.
  assert (d = 0 ∨ d = 1 ∨ d = 2 ∨ d = 3 ∨ d = 4 ∨ d = 5 ∨ d = 6 ∨ d = 7
          ∨ d = 8 ∨ d = 9) as Hcases by lia.
  repeat (destruct Hcases as [->|Hcases]; [reflexivity|]). by subst.
Qed.

Lemma digit_chars_inj l1 l2 :
  Forall (λ d, d < 10) l1 → Forall (λ d, d < 10) l2 →
  digit_char <$> l1 = digit_char <$> l2 → l1 = l2.
Proof.
  intros H1. revert l2. induction H1 as [|a l1 Ha _ IH]; intros l2 H2 Heq.
  - by destruct l2.
  - destruct H2 as [|b l2 Hb H2]; [done|]. cbn in Heq.
    injection Heq as Hc Hrest. f_equal; [|by apply IH].
    apply (f_equal N_of_ascii) in Hc.
    rewrite !digit_char_decimal in Hc by done. lia.
Qed.

Lemma drop_rev_take {A} k (l : list A) :
  drop (length (rev l) - k) (rev l) = rev (take k l).
Proof.
  rewrite skipn_rev, length_rev. f_equal.
  destruct (decide (k ≤ length l)%nat) as [Hk|Hk].
  - f_equal. lia.
  - replace (length l - (length l - k))%nat with (length l) by lia.
    rewrite firstn_all. symmetry. apply firstn_all2. lia.
Qed.

(** [toString(n).slice(-k)] is the text of the last [k] digits of [n]. *)
Lemma slice_last_toString k n :
  slice_last k (toString n)
  = string_of_list_ascii (digit_char <$> rev (take k (digits 10 n))).
Proof.
  unfold slice_last, toString, toString_radix.
  rewrite list_ascii_of_string_of_list_ascii.
  rewrite length_fmap, <- fmap_drop. by rewrite drop_rev_take.
Qed.

Lemma append_inj_l (a b c : string) : a ++ b = a ++ c → b = c.
Proof.
  induction a as [|x a IH]; [done|].
  change (String x (a ++ b) = String x (a ++ c) → b = c).
  intros Heq. injection Heq as Heq. by apply IH.
Qed.

(** Equal ids come from clock readings that agree modulo 10^6. *)
Lemma case_id_eq t1 t2 :
  case_id t1 = case_id t2 → t1 mod 1000000 = t2 mod 1000000.
Proof.
  unfold case_id. intros Heq. apply append_inj_l in Heq.
  rewrite !slice_last_toString in Heq.
  apply (f_equal list_ascii_of_string) in Heq.
  rewrite !list_ascii_of_string_of_list_ascii in Heq.
  apply digit_chars_inj in Heq.
  - apply rev_inj in Heq.
    change 1000000 with (10 ^ N.of_nat 6).
    rewrite <- !(take_digits_value 10) by lia. by rewrite Heq.
  - apply Forall_rev, Forall_take, digits_bounded. lia.
  - apply Forall_rev, Forall_take, digits_bounded. lia.
Qed.

(** ** Report ids *)





(** * Further properties of the code *)

(** ** The hex text of a digest *)

Lemma concat_empty_cons (x : string) (l : list string) :
  String.concat "" (x :: l) = x ++ String.concat "" l.
Proof. destruct l as [|y l]; cbn; [by rewrite append_empty_r|done]. Qed.

(** A byte is written as its two hex digits, high digit first. *)
Lemma byte_hex b :
  b < 256 →
  padStart2 (toString_radix 16 b)
  = String (digit_char (b / 16)) (String (digit_char (b mod 16)) EmptyString).
Proof.
  intros Hb. unfold toString_radix.
  rewrite (digits_unfold 16) by lia.
  destruct (b <? 16) eqn:Hlt.
  - apply N.ltb_lt in Hlt.
    rewrite N.div_small, N.mod_small by done. reflexivity.
  - apply N.ltb_ge in Hlt.
    rewrite (digits_unfold 16) by lia.
    assert ((b / 16 <? 16) = true) as ->
      by (apply N.ltb_lt, N.Div0.div_lt_upper_bound; lia).
    reflexivity.
Qed.

Lemma hex_cons b l :
  b < 256 →
  hex (b :: l)
  = String (digit_char (b / 16)) (String (digit_char (b mod 16)) (hex l)).
Proof.
  intros Hb. unfold hex. rewrite fmap_cons, concat_empty_cons.
  by rewrite byte_hex.
Qed.

Lemma digit_char_hex d :
  d < 16 → N_of_ascii (digit_char d) = if d <? 10 then 48 + d else 87 + d.
Proof.
  intros Hd.
  assert (d = 0 ∨ d = 1 ∨ d = 2 ∨ d = 3 ∨ d = 4 ∨ d = 5 ∨ d = 6 ∨ d = 7
          ∨ d = 8 ∨ d = 9 ∨ d = 10 ∨ d = 11 ∨ d = 12 ∨ d = 13 ∨ d = 14
          ∨ d = 15) as Hcases by lia.
  repeat (destruct Hcases as [->|Hcases]; [reflexivity|]). by subst.
Qed.

Lemma digit_char_hex_inj a b :
  a < 16 → b < 16 → digit_char a = digit_char b → a = b.
Proof.
  intros Ha Hb Heq. apply (f_equal N_of_ascii) in Heq.
  rewrite !digit_char_hex in Heq by done.
  destruct (a <? 10) eqn:Ea, (b <? 10) eqn:Eb;
    try apply N.ltb_lt in Ea; try apply N.ltb_lt in Eb;
    try apply N.ltb_ge in Ea; try apply N.ltb_ge in Eb; lia.
Qed.

Lemma hex_length (hashArray : list N) :
  Forall (λ b, b < 256) hashArray →
  String.length (hex hashArray) = (2 * length hashArray)%nat.
Proof.
  induction 1 as [|b l Hb _ IH]; [done|].
  rewrite hex_cons by done. cbn [String.length length]. lia.
Qed.

Lemma hex_eq_inv (a b : list N) :
  Forall (λ x, x < 256) a → Forall (λ x, x < 256) b →
  hex a = hex b → a = b.
Proof.
  intros Ha. revert b. induction Ha as [|x a Hx _ IH]; intros b Hb Heq.
  - destruct Hb as [|y b Hy _]; [done|]. by rewrite hex_cons in Heq.
  - destruct Hb as [|y b Hy Hb]; [by rewrite hex_cons in Heq|].
    rewrite !hex_cons in Heq by done.
    injection Heq as Hhi Hlo Hrest.
    apply digit_char_hex_inj in Hhi;
      [|by apply N.Div0.div_lt_upper_bound..].
    apply digit_char_hex_inj in Hlo; [|by apply N.mod_upper_bound..].
    f_equal; [|by apply IH].
    rewrite (N.div_mod x 16), (N.div_mod y 16) by done. congruence.
Qed.

Lemma calculateFileHash_returns p f buffer hashBuffer :
  arrayBuffer p f = inr buffer →
  subtle_digest p buffer = inr hashBuffer →
  digest_returns p f (hex hashBuffer).
Proof.
  intros Hbuf Hdig. unfold digest_returns, outcome_of, calculateFileHash.
  cbn. unfold mbind, M_bind, lift, perform. cbn.
  rewrite Hbuf. cbn. by rewrite Hdig.
Qed.

(** X1: when the file is read and digested, [calculateFileHash] returns
    the hex text of the digest, two characters a byte: 64 characters for
    the 32 bytes of SHA-256. *)
Theorem calculateFileHash_length p f buffer hashBuffer :
  arrayBuffer p f = inr buffer →
  subtle_digest p buffer = inr hashBuffer →
  Forall (λ b, b < 256) hashBuffer →
  digest_returns p f (hex hashBuffer) ∧
  String.length (hex hashBuffer) = (2 * length hashBuffer)%nat.
Proof.
  intros Hbuf Hdig Hbytes.
  split; [by apply (calculateFileHash_returns p f buffer)|].
  by apply hex_length.
Qed.

Lemma calculateFileHash_length_sample :
  digest_returns platform_A sample_png (hex sha_bytes) ∧
  String.length (hex sha_bytes) = 64%nat.
Proof.
  apply (calculateFileHash_length platform_A sample_png png_bytes sha_bytes);
    [reflexivity | reflexivity | repeat constructor].
Defined.

(** X2: two different digests never get the same hex text. *)
Theorem hex_distinct (a b : list N) :
  Forall (λ x, x < 256) a → Forall (λ x, x < 256) b →
  a ≠ b → hex a ≠ hex b.
Proof. intros Ha Hb Hne Heq. by apply Hne, hex_eq_inv. Qed.

Lemma hex_distinct_sample : hex sha_bytes ≠ hex png_bytes.
Proof.
  apply (hex_distinct sha_bytes png_bytes);
    [repeat constructor | repeat constructor | discriminate].
Defined.

(** ** What a run does to the outside *)

Lemma calculateFileHash_effects p f :
  effects_of (calculateFileHash p f)
  = match arrayBuffer p f with
    | inl _ => [EArrayBuffer f]
    | inr buffer => [EArrayBuffer f; EDigest buffer]
    end.
Proof.
  unfold effects_of, calculateFileHash.
  cbn. unfold mbind, M_bind, lift, perform. cbn.
  destruct (arrayBuffer p f) as [e|buffer]; cbn; [done|].
  by destruct (subtle_digest p buffer).
Qed.

Lemma analyzeMedia_effects p f t ctx :
  effects_of (analyzeMedia p f t ctx)
  = if String.eqb (GEMINI_API_KEY p) "" then []
    else [EReadAsDataURL f;
          EGenerateContent
            (request_of
               (split_comma_1 (list_ascii_of_string (readAsDataURL p f)),
                file_type f) t ctx)].
Proof.
  unfold effects_of, analyzeMedia.
  destruct (String.eqb (GEMINI_API_KEY p) ""); [done|].
  unfold fileToGenerativePart.
  cbn. unfold mbind, M_bind, lift, perform. cbn.
  destruct (generateContent p _) as [e|text]; cbn; [done|].
  destruct (JSON_parse p _) as [e|json]; cbn; [done|].
  destruct (nullish json) eqn:Hn.
  - by destruct json.
  - by repeat (rewrite get_prop_field by done; cbn).
Qed.

Lemma run_effects_eq p w es :
  effects (run p w) = (effects w ++ es)%list → run_effects p w = es.
Proof. unfold run_effects. intros ->. by rewrite drop_app_length. Qed.

(** X3: when the file cannot be read, the run stops there: the digest is
    not computed, the file is not turned into a data URL and nothing is sent
    to the remote model; the only outside calls are the failed read and
    [console.error]. *)
Theorem unreadable_file_is_never_sent p w f e :
  file w = Some f →
  arrayBuffer p f = inl e →
  run_effects p w = [EArrayBuffer f; EConsoleError e] ∧
  report (run p w) = report w.
Proof.
  intros Hf Hbuf.
  assert (digest_throws p f e) as Hd.
  { unfold digest_throws, outcome_of, calculateFileHash.
    cbn. unfold mbind, M_bind, lift, perform. cbn. by rewrite Hbuf. }
  rewrite (run_digest_failure p w f e Hf Hd). cbn [effects report].
  split; [|done]. apply run_effects_eq.
  rewrite (run_digest_failure p w f e Hf Hd). cbn [effects].
  by rewrite calculateFileHash_effects, Hbuf.
Qed.

Lemma unreadable_file_is_never_sent_sample :
  run_effects platform_unreadable (selected sample_png)
    = [EArrayBuffer sample_png; EConsoleError NotReadableError] ∧
  report (run platform_unreadable (selected sample_png)) = None.
Proof.
  apply (unreadable_file_is_never_sent platform_unreadable
           (selected sample_png) sample_png NotReadableError); reflexivity.
Defined.

(** X4: a run calls the remote model at most once, whatever happens: there
    is no retry. *)
Theorem at_most_one_remote_call p w f :
  file w = Some f →
  (length (filter (λ e, is_remote_call e = true) (run_effects p w)) ≤ 1)%nat.
Proof.
  intros Hf.
  destruct (outcome_of (calculateFileHash p f)) as [h|e] eqn:Hd.
  - destruct (outcome_of (classify p f (contextText w))) as [ai|e] eqn:Hc.
    + rewrite (run_effects_eq p w _
                 (f_equal effects (run_success p w f h ai Hf Hd Hc))).
      rewrite calculateFileHash_effects. unfold classify.
      rewrite analyzeMedia_effects.
      destruct (arrayBuffer p f), (String.eqb (GEMINI_API_KEY p) "");
        vm_compute; lia.
    + rewrite (run_effects_eq p w _
                 (f_equal effects
                    (run_classification_failure p w f h e Hf Hd Hc))).
      rewrite calculateFileHash_effects. unfold classify.
      rewrite analyzeMedia_effects.
      destruct (arrayBuffer p f), (String.eqb (GEMINI_API_KEY p) "");
        vm_compute; lia.
  - rewrite (run_effects_eq p w _
               (f_equal effects (run_digest_failure p w f e Hf Hd))).
    rewrite calculateFileHash_effects.
    destruct (arrayBuffer p f); vm_compute; lia.
Qed.

Lemma at_most_one_remote_call_scenario_A :
  (length (filter (λ e, is_remote_call e = true)
             (run_effects platform_A (selected sample_png))) ≤ 1)%nat.
Proof.
  apply (at_most_one_remote_call platform_A (selected sample_png) sample_png).
  reflexivity.
Defined.

(** ** The file part sent to the model *)

Lemma until_comma_app (data rest : list ascii) :
  Forall (λ c, c ≠ ","%char) data →
  until_comma (data ++ ","%char :: rest) = data.
Proof.
  induction 1 as [|c data Hc _ IH]; [done|]. cbn.
  apply Ascii.eqb_neq in Hc. rewrite Hc. by rewrite IH.
Qed.

Lemma until_comma_free (data : list ascii) :
  Forall (λ c, c ≠ ","%char) data → until_comma data = data.
Proof.
  induction 1 as [|c data Hc _ IH]; [done|]. cbn.
  apply Ascii.eqb_neq in Hc. rewrite Hc. by rewrite IH.
Qed.

Lemma split_comma_1_data (header data : list ascii) :
  Forall (λ c, c ≠ ","%char) header →
  Forall (λ c, c ≠ ","%char) data →
  split_comma_1 (header ++ ","%char :: data)
  = Some (string_of_list_ascii data).
Proof.
  intros Hh Hd. induction Hh as [|c header Hc _ IH]; cbn.
  - by rewrite until_comma_free.
  - apply Ascii.eqb_neq in Hc. by rewrite Hc.
Qed.

Lemma list_ascii_of_string_app (a b : string) :
  list_ascii_of_string (a ++ b)
  = (list_ascii_of_string a ++ list_ascii_of_string b)%list.
Proof.
  induction a as [|x a IH]; [done|].
  change (x :: list_ascii_of_string (a ++ b)
          = x :: (list_ascii_of_string a ++ list_ascii_of_string b)%list).
  by rewrite IH.
Qed.

(** X5: [fileToGenerativePart] never rejects, and for a data URL
    [header,data] whose two parts hold no comma (base64 text never does)
    the part it builds carries exactly [data] and the file's MIME type. *)
Theorem fileToGenerativePart_data p f header data w :
  readAsDataURL p f = header ++ "," ++ data →
  comma_free header →
  comma_free data →
  fileToGenerativePart p f w
  = (Return (Some data, file_type f), with_effects w [EReadAsDataURL f]).
Proof.
  intros Hurl Hh Hd. unfold fileToGenerativePart.
  cbn. unfold mbind, M_bind, perform, mret, M_ret. cbn.
  rewrite Hurl, !list_ascii_of_string_app. cbn [list_ascii_of_string app].
  rewrite split_comma_1_data by done.
  by rewrite string_of_list_ascii_of_string.
Qed.

Lemma fileToGenerativePart_data_sample :
  fileToGenerativePart platform_A sample_png initialWorld
  = (Return (Some "iVBORw==", "image/png"),
     with_effects initialWorld [EReadAsDataURL sample_png]).
Proof.
  apply (fileToGenerativePart_data platform_A sample_png
           "data:image/png;base64" "iVBORw==" initialWorld);
    [reflexivity | repeat constructor; discriminate
     | repeat constructor; discriminate].
Defined.

(** ** What [analyzeMedia] hands back *)

(** Whatever [analyzeMedia] returns is [partialReport] of a parsed
    response that is neither [null] nor [undefined]. *)
Lemma analyzeMedia_shape p f t ctx ai :
  outcome_of (analyzeMedia p f t ctx) = Return ai →
  ∃ payload, nullish payload = false ∧ ai = partialReport payload.
Proof.
  unfold outcome_of, analyzeMedia.
  destruct (String.eqb (GEMINI_API_KEY p) ""); [done|].
  unfold fileToGenerativePart.
  cbn. unfold mbind, M_bind, lift, perform. cbn.
  destruct (generateContent p _) as [e|text]; cbn; [done|].
  destruct (JSON_parse p _) as [e|json]; cbn; [done|].
  destruct (nullish json) eqn:Hn.
  - by destruct json.
  - repeat (rewrite get_prop_field by done; cbn).
    intros [= <-]. by exists json.
Qed.

Lemma nullish_falsy v : nullish v = true → truthy v = false.
Proof. by destruct v. Qed.

Lemma js_or_not_nullish a d : nullish d = false → nullish (a ||| d) = false.
Proof.
  intros Hd. unfold js_or. destruct (truthy a) eqn:Ha; [|done].
  destruct (nullish a) eqn:Hn; [|done]. apply nullish_falsy in Hn. congruence.
Qed.

Lemma js_or_truthy a d : truthy d = true → truthy (a ||| d) = true.
Proof. intros Hd. unfold js_or. by destruct (truthy a) eqn:Ha. Qed.

(** X6: every published report is fully populated: none of its fields
    from the payload is [null] or [undefined], [manipulationType] included
    (the report literal does not default it, [analyzeMedia] does), the
    three list fields are truthy, [reasoning] is never the empty string,
    and the metadata hold the two computed entries whatever the payload's
    metadata were. *)
Theorem published_report_is_populated p w f h ai :
  file w = Some f →
  digest_returns p f h →
  classification_yields p f (contextText w) ai →
  ∃ r, report (run p w) = Some r ∧
    nullish (authenticityScore r) = false ∧
    nullish (isManipulated r) = false ∧
    truthy (manipulationType r) = true ∧
    truthy (ensembleData r) = true ∧
    nullish (semanticMismatchDetected r) = false ∧
    nullish (semanticAnalysisText r) = false ∧
    truthy (reasoning r) = true ∧
    truthy (suspiciousRegions r) = true ∧
    metadata r !! "originalSize"
      = Some (VStr (mb_toFixed2 (file_size f) ++ " MB")) ∧
    metadata r !! "mimeType" = Some (VStr (file_type f)).
Proof.
  intros Hf Hd Hc.
  destruct (analyzeMedia_shape p f _ _ ai Hc) as (payload & Hn & ->).
  eexists. split; [by rewrite (run_success p w f h _ Hf Hd Hc)|].
  cbn [fullReport partialReport authenticityScore isManipulated
       manipulationType ensembleData semanticMismatchDetected
       semanticAnalysisText reasoning suspiciousRegions metadata
       ai_authenticityScore ai_isManipulated ai_manipulationType
       ai_ensembleData ai_semanticMismatchDetected ai_semanticAnalysisText
       ai_reasoning ai_suspiciousRegions ai_metadata].
  repeat split;
    try (by apply js_or_not_nullish); try (by apply js_or_truthy).
  - by rewrite lookup_insert_ne, lookup_insert_eq.
  - by rewrite lookup_insert_eq.
Qed.

Lemma published_report_is_populated_scenario_C :
  ∃ r, report (run platform_C (selected sample_png)) = Some r ∧
    nullish (authenticityScore r) = false ∧
    nullish (isManipulated r) = false ∧
    truthy (manipulationType r) = true ∧
    truthy (ensembleData r) = true ∧
    nullish (semanticMismatchDetected r) = false ∧
    nullish (semanticAnalysisText r) = false ∧
    truthy (reasoning r) = true ∧
    truthy (suspiciousRegions r) = true ∧
    metadata r !! "originalSize" = Some (VStr "2.00 MB") ∧
    metadata r !! "mimeType" = Some (VStr "image/png").
Proof.
  apply (published_report_is_populated platform_C (selected sample_png)
           sample_png (hex sha_bytes) (partialReport (VObj ∅)));
    vm_compute; reflexivity.
Defined.

(** ** Responses without a usable body *)

(** X7: a response with no text, or with the empty text, is parsed as the
    text of the empty object: when [JSON.parse] reads that as [{}], the run
    succeeds and publishes the all-defaults report. *)
Theorem empty_body_gives_default_report p w f h response_text :
  file w = Some f →
  digest_returns p f h →
  GEMINI_API_KEY p ≠ "" →
  generateContent p
    (request_of (split_comma_1 (list_ascii_of_string (readAsDataURL p f)),
                 file_type f)
                (mediaTypeOf (file_type f)) (contextText w))
    = inr response_text →
  response_text = None ∨ response_text = Some "" →
  JSON_parse p "{}" = inr (VObj ∅) →
  ∃ r, report (run p w) = Some r ∧
    currentStep (analysisState (run p w)) = "COMPLETE" ∧
    authenticityScore r = VNum (Finite 0) ∧
    isManipulated r = VBool false ∧
    reasoning r = VStr "Analysis failed." ∧
    manipulationType r = VArr [] ∧
    ensembleData r = VArr [] ∧
    suspiciousRegions r = VArr [] ∧
    metadata r = computed_metadata f.
Proof.
  intros Hf Hd Hk Hgen Hempty Hparse.
  assert (classification_returns p f (contextText w) (VObj ∅)) as Hc.
  { split; [done|]. exists response_text. split; [done|].
    by destruct Hempty as [-> | ->]. }
  pose proof (analyzeMedia_returns p f _ _ Hc eq_refl) as Hai.
  rewrite (run_success p w f h _ Hf Hd Hai). cbn [report analysisState].
  eexists. split; [reflexivity|]. repeat split.
Qed.

Lemma empty_body_gives_default_report_sample :
  ∃ r, report (run platform_empty_body (selected sample_png)) = Some r ∧
    currentStep (analysisState (run platform_empty_body (selected sample_png)))
      = "COMPLETE" ∧
    authenticityScore r = VNum (Finite 0) ∧
    isManipulated r = VBool false ∧
    reasoning r = VStr "Analysis failed." ∧
    manipulationType r = VArr [] ∧
    ensembleData r = VArr [] ∧
    suspiciousRegions r = VArr [] ∧
    metadata r = computed_metadata sample_png.
Proof.
  apply (empty_body_gives_default_report platform_empty_body
           (selected sample_png) sample_png (hex sha_bytes) (Some ""));
    [reflexivity | vm_compute; reflexivity | by vm_compute
     | vm_compute; reflexivity | by right | vm_compute; reflexivity].
Defined.

(** X8: a response whose text parses to [null] is not defaulted: reading
    its first property throws a TypeError, [analyzeMedia] rejects, and the
    run fails with the error in the log and no report. *)
Theorem null_payload_fails_the_run p w f h :
  file w = Some f →
  digest_returns p f h →
  classification_returns p f (contextText w) VNull →
  (∃ message,
     classification_throws p f (contextText w) (ErrorObj "TypeError" message)) ∧
  isAnalyzing (analysisState (run p w)) = false ∧
  (∃ line, last (logs (analysisState (run p w))) = Some line ∧
           includes line "TypeError") ∧
  report (run p w) = report w.
Proof.
  intros Hf Hd [Hk (text & Hgen & Hparse)].
  assert (classification_throws p f (contextText w)
            (ErrorObj "TypeError"
               "Cannot read properties of null (reading 'authenticityScore')"))
    as Hc.
  { unfold classification_throws, outcome_of, classify, analyzeMedia.
    apply String.eqb_neq in Hk. rewrite Hk.
    unfold fileToGenerativePart.
    cbn. unfold mbind, M_bind, lift, perform. cbn.
    rewrite Hgen. cbn. by rewrite Hparse. }
  split; [by eexists|].
  rewrite (run_classification_failure p w f h _ Hf Hd Hc). cbn.
  repeat split. eexists. split; [reflexivity|].
  exists ("[" ++ toLocaleTimeString p (clock p (S (S (S (S (S (ticks w)))))))
              ++ "] CRITICAL ERROR: "),
         (": Cannot read properties of null "
            ++ "(reading 'authenticityScore')").
  unfold stamp. by rewrite !append_assoc.
Qed.

Lemma null_payload_fails_the_run_sample :
  (∃ message,
     classification_throws platform_null sample_png ""
       (ErrorObj "TypeError" message)) ∧
  isAnalyzing (analysisState (run platform_null (selected sample_png)))
    = false ∧
  (∃ line,
     last (logs (analysisState (run platform_null (selected sample_png))))
       = Some line ∧
     includes line "TypeError") ∧
  report (run platform_null (selected sample_png)) = None.
Proof.
  apply (null_payload_fails_the_run platform_null (selected sample_png)
           sample_png (hex sha_bytes));
    [reflexivity | vm_compute; reflexivity |].
  split; [by vm_compute|]. exists (Some "null"). split; vm_compute; reflexivity.
Defined.

(** ** Stages and log of a run *)

(** The snapshots of a run, by the way it ends. *)
Lemma snapshots_eq p w l :
  history (run p w) = (history w ++ l)%list → snapshots p w = l.
Proof. unfold snapshots. intros ->. by rewrite drop_app_length. Qed.

(** X9: the stage labels of a successful run are, in order, INIT, HASHING,
    LOADING_MODELS, INFERENCE, COMPLETE; a run whose classification fails
    stops at LOADING_MODELS, and one whose digest fails never leaves
    INIT. *)
Theorem stage_labels_of_a_run p w f :
  file w = Some f →
  labels_in_order (currentStep <$> snapshots p w)
  = match outcome_of (calculateFileHash p f),
          outcome_of (classify p f (contextText w)) with
    | Throw _, _ => ["INIT"]
    | Return _, Throw _ => ["INIT"; "HASHING"; "LOADING_MODELS"]
    | Return _, Return _ =>
        ["INIT"; "HASHING"; "LOADING_MODELS"; "INFERENCE"; "COMPLETE"]
    end.
Proof.
  intros Hf.
  destruct (outcome_of (calculateFileHash p f)) as [h|e] eqn:Hd.
  - destruct (outcome_of (classify p f (contextText w))) as [ai|e] eqn:Hc.
    + by rewrite (snapshots_eq p w _
                    (f_equal history (run_success p w f h ai Hf Hd Hc))).
    + by rewrite (snapshots_eq p w _
                    (f_equal history
                       (run_classification_failure p w f h e Hf Hd Hc))).
  - by rewrite (snapshots_eq p w _
                  (f_equal history (run_digest_failure p w f e Hf Hd))).
Qed.

Lemma stage_labels_of_a_run_scenario_A :
  labels_in_order (currentStep <$> snapshots platform_A (selected sample_png))
  = ["INIT"; "HASHING"; "LOADING_MODELS"; "INFERENCE"; "COMPLETE"].
Proof.
  apply (stage_labels_of_a_run platform_A (selected sample_png) sample_png).
  reflexivity.
Defined.

Lemma growing_lookup l i s s' :
  growing l → l !! i = Some s → l !! S i = Some s' →
  logs s `prefix_of` logs s'.
Proof.
  revert i. induction l as [|a l IH]; intros i Hg Hs Hs'; [done|].
  destruct l as [|b l]; [by destruct i|]. destruct Hg as [Hab Hg].
  destruct i as [|i].
  - cbn in Hs, Hs'. by simplify_eq.
  - by apply (IH i).
Qed.

Ltac grows :=
  repeat (split; [first [exists []; reflexivity | eexists [_]; reflexivity]|]);
  exact I.

Ltac starts_with_INIT :=
  repeat (constructor; [reflexivity|]); constructor.

Lemma run_log_grows p w f :
  file w = Some f →
  growing (snapshots p w) ∧
  Forall (λ s, head (logs s) = Some "Initializing core modules...")
         (snapshots p w).
Proof.
  intros Hf.
  destruct (outcome_of (calculateFileHash p f)) as [h|e] eqn:Hd.
  - destruct (outcome_of (classify p f (contextText w))) as [ai|e] eqn:Hc.
    + rewrite (snapshots_eq p w _
                 (f_equal history (run_success p w f h ai Hf Hd Hc))).
      split; [cbn -[prefix]; grows | starts_with_INIT].
    + rewrite (snapshots_eq p w _
                 (f_equal history
                    (run_classification_failure p w f h e Hf Hd Hc))).
      split; [cbn -[prefix]; grows | starts_with_INIT].
  - rewrite (snapshots_eq p w _
               (f_equal history (run_digest_failure p w f e Hf Hd))).
    split; [cbn -[prefix]; grows | starts_with_INIT].
Qed.

(** X10: within a run the log only grows: it starts as the single line of
    INIT, whatever the log held before, and from one snapshot to the next
    the lines already there are kept in place. *)
Theorem log_is_append_only p w f i s s' :
  file w = Some f →
  snapshots p w !! i = Some s →
  snapshots p w !! S i = Some s' →
  logs s `prefix_of` logs s' ∧
  head (logs s) = Some "Initializing core modules...".
Proof.
  intros Hf Hs Hs'. destruct (run_log_grows p w f Hf) as [Hg Hall].
  split; [by apply (growing_lookup (snapshots p w) i)|].
  by apply (Forall_lookup_1 _ _ i s Hall).
Qed.

Lemma log_is_append_only_in_flight :
  logs (mkState true 50 "LOADING_MODELS"
          ["Initializing core modules...";
           "[1700000000] Hashing sample.png (2.00MB)...";
           "[1700000000] SHA-256: abc123abc123abc1...";
           "[1700000000] Loading FaceForensics++ (Xception) weights...";
           "[1700000000] Initializing DeepFake-o-Matic ensemble..."])
    `prefix_of` logs in_flight_state ∧
  head (logs (mkState true 50 "LOADING_MODELS"
          ["Initializing core modules...";
           "[1700000000] Hashing sample.png (2.00MB)...";
           "[1700000000] SHA-256: abc123abc123abc1...";
           "[1700000000] Loading FaceForensics++ (Xception) weights...";
           "[1700000000] Initializing DeepFake-o-Matic ensemble..."]))
    = Some "Initializing core modules...".
Proof.
  apply (log_is_append_only platform_A (selected sample_png) sample_png
           7%nat); vm_compute; reflexivity.
Defined.

(** ** The dashboard as a state machine *)

Lemma run_ends p w f :
  file w = Some f →
  file (run p w) = Some f ∧
  isAnalyzing (analysisState (run p w)) = false ∧
  ((report (run p w) = report w ∧ activeTab (run p w) = activeTab w) ∨
   (∃ h ai,
      report (run p w)
        = Some (fullReport p f (mediaTypeOf (file_type f)) h ai
                  (clock p (6 + ticks w)) (clock p (7 + ticks w))) ∧
      activeTab (run p w) = DASHBOARD)).
Proof.
  intros Hf.
  destruct (outcome_of (calculateFileHash p f)) as [h|e] eqn:Hd.
  - destruct (outcome_of (classify p f (contextText w))) as [ai|e] eqn:Hc.
    + rewrite (run_success p w f h ai Hf Hd Hc). cbn.
      split; [done|]. split; [done|]. right. by exists h, ai.
    + rewrite (run_classification_failure p w f h e Hf Hd Hc). cbn.
      split; [done|]. split; [done|]. by left.
  - rewrite (run_digest_failure p w f e Hf Hd). cbn.
    split; [done|]. split; [done|]. by left.
Qed.

Lemma decide_is_Some_Some {A} (x : A) : bool_decide (is_Some (Some x)) = true.
Proof. apply bool_decide_eq_true_2. by eexists. Qed.

Lemma decide_is_Some_None {A} : bool_decide (is_Some (@None A)) = false.
Proof. apply bool_decide_eq_false_2. by intros [x Hx]. Qed.

Ltac gates := rewrite ?decide_is_Some_Some, ?decide_is_Some_None; cbn.

Lemma scan_button_rendered_inv w :
  scan_button_rendered w = true →
  (∃ f, file w = Some f) ∧ report w = None ∧
  isAnalyzing (analysisState w) = false.
Proof.
  unfold scan_button_rendered. intros H.
  apply andb_true_iff in H as [H Hrun]. apply andb_true_iff in H as [Hf Hr].
  apply bool_decide_eq_true in Hf as [f Hf].
  apply negb_true_iff, bool_decide_eq_false in Hr.
  apply negb_true_iff in Hrun.
  split; [by exists f|]. split; [|done].
  destruct (report w); [|done]. exfalso. apply Hr. by eexists.
Qed.

Lemma handle_keeps_invariant p ev w :
  session_invariant w → session_invariant (snd (handle p ev w)).
Proof.
  intros Hinv. pose proof Hinv as (Hidle & Hrep & Htab).
  destruct ev as [files|s| |t]; cbn.
  - unfold change_file, upload_input_rendered.
    destruct (file w) as [f0|] eqn:Hf0; gates; [done|].
    destruct files as [|f files]; cbn; [done|].
    assert (report w = None) as Hnone.
    { destruct (report w) as [r|] eqn:Hr; [|done].
      destruct (Hrep r eq_refl) as (f' & Hf' & _). congruence. }
    split; [done|]. split; [done|]. intros _. by apply Htab.
  - unfold change_context. destruct (scan_button_rendered w); cbn; done.
  - unfold click_scan. destruct (scan_button_rendered w) eqn:Hbtn; [|done].
    destruct (scan_button_rendered_inv w Hbtn) as ((f & Hf) & Hnone & _).
    fold (run p w).
    destruct (run_ends p w f Hf) as (Hf' & Hidle' & [[Hr Ht] | (h & ai & Hr & Ht)]).
    + split; [done|]. rewrite Hr, Ht. split; [|done].
      intros r Hsome. congruence.
    + split; [done|]. split; [|done].
      intros r Hsome. rewrite Hr in Hsome. injection Hsome as <-.
      exists f. split; [done|]. cbn. by rewrite lookup_insert_eq.
  - unfold click_tab. destruct (report w) as [r|] eqn:Hr; cbn.
    + split; [done|]. split; [cbn; rewrite Hr; exact Hrep|]. cbn. congruence.
    + done.
Qed.

Lemma session_keeps_invariant p evs w :
  session_invariant w → session_invariant (session p evs w).
Proof.
  revert w. induction evs as [|ev evs IH]; intros w Hw; [done|].
  cbn. by apply IH, handle_keeps_invariant.
Qed.

(** X11: after any sequence of dashboard events, no run is left in flight,
    a report on screen belongs to the file that is selected (its name, its
    media type and the MIME type in its metadata are the file's), and the
    active tab is the first one as long as there is no report. *)
Theorem dashboard_invariant p evs :
  session_invariant (session p evs initialWorld).
Proof. apply session_keeps_invariant. by repeat split. Qed.

Lemma handle_keeps_report p ev w r :
  session_invariant w → report w = Some r →
  report (snd (handle p ev w)) = Some r.
Proof.
  intros (_ & Hrep & _) Hr. destruct (Hrep r Hr) as (f & Hf & _).
  destruct ev as [files|s| |t]; cbn.
  - unfold change_file, upload_input_rendered. rewrite Hf. by gates.
  - unfold change_context, scan_button_rendered. rewrite Hf, Hr. by gates.
  - unfold click_scan, scan_button_rendered. rewrite Hf, Hr. by gates.
  - unfold click_tab. by rewrite Hr.
Qed.

(** X12: once a report is published, nothing the user does on the
    dashboard replaces or clears it: the file input and the scan button are
    gone, so a dashboard shows at most one report until it is mounted
    anew. *)
Theorem published_report_stays p evs evs' r :
  report (session p evs initialWorld) = Some r →
  report (session p evs' (session p evs initialWorld)) = Some r ∧
  upload_input_rendered (session p evs initialWorld) = false ∧
  scan_button_rendered (session p evs initialWorld) = false.
Proof.
  intros Hr.
  assert (session_invariant (session p evs initialWorld)) as Hinv
    by (apply session_keeps_invariant; by repeat split).
  split.
  - revert Hinv Hr. generalize (session p evs initialWorld). clear evs.
    induction evs' as [|ev evs' IH]; intros w Hinv Hr; [done|].
    cbn. apply IH; [by apply handle_keeps_invariant|].
    by apply handle_keeps_report.
  - destruct Hinv as (_ & Hrep & _). destruct (Hrep r Hr) as (f & Hf & _).
    unfold upload_input_rendered, scan_button_rendered.
    rewrite Hf, Hr. by gates.
Qed.

Lemma published_report_stays_scenario_A :
  ∃ r,
    report (session platform_A [SelectFiles [sample_png]; ClickScan]
              initialWorld) = Some r ∧
    report (session platform_A
              [ClickScan; SelectFiles [second_file]; ClickTab SEMANTIC;
               TypeContext "a claim"; ClickScan]
              (session platform_A [SelectFiles [sample_png]; ClickScan]
                 initialWorld)) = Some r ∧
    upload_input_rendered
      (session platform_A [SelectFiles [sample_png]; ClickScan] initialWorld)
      = false ∧
    scan_button_rendered
      (session platform_A [SelectFiles [sample_png]; ClickScan] initialWorld)
      = false.
Proof.
  eexists. split; [vm_compute; reflexivity|].
  apply (published_report_stays platform_A
           [SelectFiles [sample_png]; ClickScan]).
  vm_compute. reflexivity.
Defined.

(** X13: a failed run can be started again: when the run was started from
    the scan button and the digest or the classification throws, the
    button is rendered again, with the same file selected. *)
Theorem failed_run_can_be_retried p w f e :
  scan_button_rendered w = true →
  file w = Some f →
  digest_throws p f e ∨
    (∃ h, digest_returns p f h ∧ classification_throws p f (contextText w) e) →
  scan_button_rendered (run p w) = true ∧ file (run p w) = Some f.
Proof.
  intros Hbtn Hf Hfail.
  destruct (scan_button_rendered_inv w Hbtn) as (_ & Hnone & _).
  destruct (failed_run_outcome p w f e Hf Hfail) as (Hidle & _ & Hrep).
  destruct (run_ends p w f Hf) as (Hf' & _ & _).
  split; [|done]. unfold scan_button_rendered.
  rewrite Hf', Hrep, Hnone, Hidle. by gates.
Qed.

Lemma failed_run_can_be_retried_scenario_B :
  scan_button_rendered (run platform_B (selected sample_png)) = true ∧
  file (run platform_B (selected sample_png)) = Some sample_png.
Proof.
  apply (failed_run_can_be_retried platform_B (selected sample_png)
           sample_png (Rejected "network timeout"));
    [reflexivity | reflexivity |].
  right. exists (hex sha_bytes). split; vm_compute; reflexivity.
Defined.

(** X14: a run in flight cannot be disturbed from the dashboard: while
    [isAnalyzing] is true, with a file selected and no report yet, every
    event handler leaves the state as it is. *)
Theorem in_flight_run_is_undisturbed p w ev :
  isAnalyzing (analysisState w) = true →
  is_Some (file w) →
  report w = None →
  handle p ev w = (Return tt, w).
Proof.
  intros Hrun [f Hf] Hnone.
  assert (scan_button_rendered w = false) as Hbtn.
  { unfold scan_button_rendered. rewrite Hrun. by rewrite andb_false_r. }
  destruct ev as [files|s| |t]; cbn.
  - unfold change_file, upload_input_rendered. rewrite Hf. by gates.
  - unfold change_context. by rewrite Hbtn.
  - unfold click_scan. by rewrite Hbtn.
  - unfold click_tab. by rewrite Hnone.
Qed.

Lemma in_flight_run_is_undisturbed_sample :
  handle platform_A (SelectFiles [second_file]) in_flight
  = (Return tt, in_flight).
Proof.
  apply (in_flight_run_is_undisturbed platform_A in_flight
           (SelectFiles [second_file]));
    [reflexivity | by eexists | reflexivity].
Defined.

(** ** The digits of an id *)

Section MoreDigits.

Context (radix : N).
Hypothesis Hradix : 2 ≤ radix.

Lemma digits_nonempty n : (0 < length (digits radix n))%nat.
Proof.
  rewrite digits_unfold by done. destruct (n <? radix); cbn; lia.
Qed.

(** A number of at least [radix ^ k] has more than [k] digits. *)
Lemma digits_length_gt k n :
  radix ^ N.of_nat k ≤ n → (k < length (digits radix n))%nat.
Proof.
  revert n. induction k as [|k IH]; intros n Hn.
  - apply digits_nonempty.
  - rewrite Nat2N.inj_succ, N.pow_succ_r' in Hn.
    assert (0 < radix ^ N.of_nat k)
      by (apply N.neq_0_lt_0, N.pow_nonzero; lia).
    rewrite digits_unfold by done.
    assert ((n <? radix) = false) as -> by (apply N.ltb_ge; nia).
    cbn [length]. apply ->Nat.succ_lt_mono. apply IH.
    apply N.div_le_lower_bound; [lia|done].
Qed.

(** Digit lists of one length are told apart by their value. *)
Lemma value_le_inj l1 l2 :
  length l1 = length l2 →
  Forall (λ d, d < radix) l1 → Forall (λ d, d < radix) l2 →
  value_le radix l1 = value_le radix l2 → l1 = l2.
Proof.
  intros Hlen H1. revert l2 Hlen.
  induction H1 as [|a l1 Ha _ IH]; intros l2 Hlen H2 Hval.
  - by destruct l2.
  - destruct H2 as [|b l2 Hb H2]; [done|]. cbn in Hlen, Hval.
    assert (a = b) as ->.
    { assert (∀ d v, d < radix → (d + radix * v) mod radix = d) as Hlow.
      { intros d v Hd. rewrite (N.mul_comm radix), N.Div0.mod_add.
        by apply N.mod_small. }
      rewrite <- (Hlow a (value_le radix l1)), <- (Hlow b (value_le radix l2))
        by done.
      by rewrite Hval. }
    f_equal. apply IH; [lia|done|]. nia.
Qed.

End MoreDigits.

Lemma length_list_ascii_of_string s :
  length (list_ascii_of_string s) = String.length s.
Proof. induction s as [|c s IH]; cbn; [done|]. by rewrite IH. Qed.

Lemma case_id_digits t :
  list_ascii_of_string (case_id t)
  = (list_ascii_of_string "CASE-"
       ++ (digit_char <$> rev (take 6 (digits 10 t))))%list.
Proof.
  unfold case_id.
  by rewrite list_ascii_of_string_app, slice_last_toString,
    list_ascii_of_string_of_list_ascii.
Qed.

(** X15: for clock readings of at least six digits (every reading since
    1970-01-01 00:01:40), the id has 11 characters, and two readings get the
    same id exactly when they agree modulo 1000000 milliseconds. *)
Theorem case_id_collides_iff t1 t2 :
  100000 ≤ t1 → 100000 ≤ t2 →
  String.length (case_id t1) = 11%nat ∧
  (case_id t1 = case_id t2 ↔ t1 mod 1000000 = t2 mod 1000000).
Proof.
  intros H1 H2.
  assert (∀ t, 100000 ≤ t → length (take 6 (digits 10 t)) = 6%nat) as Hsix.
  { intros t Ht. rewrite length_take.
    pose proof (digits_length_gt 10 ltac:(lia) 5 t Ht). lia. }
  split; [|split].
  - rewrite <- length_list_ascii_of_string, case_id_digits.
    rewrite length_app, length_fmap, length_rev, Hsix by done. reflexivity.
  - apply case_id_eq.
  - intros Hmod.
    rewrite <- (string_of_list_ascii_of_string (case_id t1)).
    rewrite <- (string_of_list_ascii_of_string (case_id t2)).
    rewrite !case_id_digits. do 4 f_equal.
    apply (value_le_inj 10); [lia|by rewrite !Hsix| | |].
    + apply Forall_take, digits_bounded. lia.
    + apply Forall_take, digits_bounded. lia.
    + rewrite !(take_digits_value 10) by lia. exact Hmod.
Qed.

Lemma case_id_collides_iff_sample :
  String.length (case_id 1700000001800) = 11%nat ∧
  (case_id 1700000001800 = case_id 1700001001800
   ↔ 1700000001800 mod 1000000 = 1700001001800 mod 1000000).
Proof. apply (case_id_collides_iff 1700000001800 1700001001800); lia. Defined.

(** ** The size text *)

(** A number below 100 is padded to its two decimal digits. *)
Lemma two_decimals v :
  v < 100 →
  padStart2 (toString v)
  = String (digit_char (v / 10)) (String (digit_char (v mod 10)) EmptyString).
Proof.
  intros Hv. unfold toString, toString_radix.
  rewrite (digits_unfold 10) by lia.
  destruct (v <? 10) eqn:Hlt.
  - apply N.ltb_lt in Hlt.
    rewrite N.div_small, N.mod_small by done. reflexivity.
  - apply N.ltb_ge in Hlt.
    rewrite (digits_unfold 10) by lia.
    assert ((v / 10 <? 10) = true) as ->
      by (apply N.ltb_lt, N.Div0.div_lt_upper_bound; lia).
    reflexivity.
Qed.

Lemma digit_char_decimal_inj a b :
  a < 10 → b < 10 → digit_char a = digit_char b → a = b.
Proof.
  intros Ha Hb Heq. apply (f_equal N_of_ascii) in Heq.
  rewrite !digit_char_decimal in Heq by done. lia.
Qed.

Lemma digits_single x d : digits 10 x = [d] → x = d.
Proof.
  rewrite (digits_unfold 10) by lia. destruct (x <? 10); [by intros [= ->]|].
  intros [= _ Hrest]. pose proof (digits_nonempty 10 ltac:(lia) (x / 10)).
  rewrite Hrest in H. cbn in H. lia.
Qed.

Lemma mod_100_mod_10 n : (n mod 100) mod 10 = n mod 10.
Proof.
  replace 100 with (10 * 10) by reflexivity.
  rewrite N.Div0.mod_mul_r, (N.mul_comm 10), N.Div0.mod_add.
  apply N.Div0.mod_mod.
Qed.

(** The number of hundredths [mb_toFixed2] prints. *)
Lemma mb_toFixed2_eq size :
  mb_toFixed2 size
  = toString ((200 * size + 1048576) / 2097152 / 100) ++ "."
      ++ String (digit_char ((200 * size + 1048576) / 2097152 mod 100 / 10))
           (String (digit_char ((200 * size + 1048576) / 2097152 mod 10))
              EmptyString).
Proof.
  unfold mb_toFixed2. cbv zeta. rewrite two_decimals.
  - by rewrite mod_100_mod_10.
  - by apply N.mod_upper_bound.
Qed.

(** X16: the size text is the size in MiB rounded to the nearest
    hundredth, halves up, always with two decimals; it reads 0.00 exactly
    for the files of less than 5243 bytes. *)
Theorem size_text_rounds_to_hundredths size :
  (∃ n, 2097152 * n ≤ 200 * size + 1048576 < 2097152 * (n + 1) ∧
        mb_toFixed2 size
        = toString (n / 100) ++ "."
            ++ String (digit_char (n mod 100 / 10))
                 (String (digit_char (n mod 10)) EmptyString)) ∧
  (mb_toFixed2 size = "0.00" ↔ size < 5243).
Proof.
  set (n := (200 * size + 1048576) / 2097152).
  assert (2097152 * n ≤ 200 * size + 1048576 < 2097152 * (n + 1)) as Hn.
  { unfold n. split; [by apply N.Div0.mul_div_le|].
    rewrite N.add_1_r. apply N.mul_succ_div_gt. lia. }
  split; [exists n; split; [done|apply mb_toFixed2_eq]|].
  rewrite mb_toFixed2_eq. fold n. split.
  - intros Heq. apply (f_equal list_ascii_of_string) in Heq.
    rewrite list_ascii_of_string_app in Heq.
    unfold toString, toString_radix in Heq.
    pose proof (digits_bounded 10 ltac:(lia) (n / 100)) as Hb.
    remember (digits 10 (n / 100)) as ds eqn:Hds. symmetry in Hds.
    rewrite list_ascii_of_string_of_list_ascii in Heq.
    cbv [String.append] in Heq.
    pose proof (f_equal length Heq) as Hlen.
    rewrite length_app, length_fmap, length_rev in Hlen. cbn in Hlen.
    destruct ds as [|d [|d' ds]]; [cbn in Hlen; lia| |cbn in Hlen; lia].
    apply Forall_cons in Hb as [Hd10 _].
    apply digits_single in Hds. cbn in Heq.
    injection Heq as Hd Htens Hunits.
    apply (digit_char_decimal_inj _ 0) in Hd; [|done|lia].
    apply (digit_char_decimal_inj _ 0) in Htens;
      [|apply N.Div0.div_lt_upper_bound; by apply N.mod_upper_bound|lia].
    apply (digit_char_decimal_inj _ 0) in Hunits;
      [|by apply N.mod_upper_bound|lia].
    assert (n = 0) as Hzero.
    { rewrite (N.div_mod n 100), Hds, Hd by done.
      rewrite (N.div_mod (n mod 100) 10), Htens by done.
      rewrite mod_100_mod_10. lia. }
    lia.
  - intros Hsmall. assert (n = 0) as -> by lia. reflexivity.
Qed.

(** ** Media kinds and what is not checked *)

Lemma prefix_append (a rest : string) : String.prefix a (a ++ rest) = true.
Proof.
  induction a as [|c a IH]; [by destruct rest|].
  change (String.prefix (String c a) (String c (a ++ rest)) = true).
  cbn. by destruct (ascii_dec c c).
Qed.

Lemma mediaTypeOf_image rest : mediaTypeOf ("image" ++ rest) = IMAGE.
Proof. unfold mediaTypeOf. by rewrite prefix_append. Qed.

Lemma mediaTypeOf_video rest : mediaTypeOf ("video" ++ rest) = VIDEO.
Proof.
  unfold mediaTypeOf. rewrite prefix_append.
  by replace (String.prefix "image" ("video" ++ rest)) with false.
Qed.

Lemma mediaTypeOf_audio rest : mediaTypeOf ("audio" ++ rest) = AUDIO.
Proof.
  unfold mediaTypeOf. rewrite prefix_append.
  replace (String.prefix "image" ("audio" ++ rest)) with false by done.
  by replace (String.prefix "video" ("audio" ++ rest)) with false.
Qed.

(** X17: the media kind is read off the prefix of the MIME type, so every
    type the constants list as supported gets its kind, whatever follows
    the prefix; a type with none of the three prefixes, the empty one
    included, is UNKNOWN. *)
Theorem media_kind_of_supported_types :
  (∀ rest, mediaTypeOf ("image" ++ rest) = IMAGE) ∧
  (∀ rest, mediaTypeOf ("video" ++ rest) = VIDEO) ∧
  (∀ rest, mediaTypeOf ("audio" ++ rest) = AUDIO) ∧
  Forall (λ t, mediaTypeOf t = IMAGE) SUPPORTED_IMAGE_TYPES ∧
  Forall (λ t, mediaTypeOf t = VIDEO) SUPPORTED_VIDEO_TYPES ∧
  Forall (λ t, mediaTypeOf t = AUDIO) SUPPORTED_AUDIO_TYPES ∧
  (∀ t, String.prefix "image" t = false → String.prefix "video" t = false →
        String.prefix "audio" t = false → mediaTypeOf t = UNKNOWN) ∧
  mediaTypeOf "" = UNKNOWN.
Proof.
  split; [apply mediaTypeOf_image|].
  split; [apply mediaTypeOf_video|].
  split; [apply mediaTypeOf_audio|].
  do 3 (split; [repeat constructor|]).
  split; [|reflexivity].
  intros t Hi Hv Ha. unfold mediaTypeOf. by rewrite Hi, Hv, Ha.
Qed.

(** X18: [runAnalysis] checks neither the size nor the type of the file:
    a file above [MAX_FILE_SIZE_MB] whose type has none of the known
    prefixes is hashed and classified like any other, and its report has
    the kind UNKNOWN. *)
Theorem oversized_unknown_file_is_analysed p w f h ai :
  file w = Some f →
  MAX_FILE_SIZE_MB * 1048576 < file_size f →
  mediaTypeOf (file_type f) = UNKNOWN →
  digest_returns p f h →
  classification_yields p f (contextText w) ai →
  ∃ r, report (run p w) = Some r ∧
       fileName r = file_name f ∧
       fileType r = UNKNOWN ∧
       fileHash r = h ∧
       currentStep (analysisState (run p w)) = "COMPLETE".
Proof.
  intros Hf _ Hkind Hd Hc.
  rewrite (run_success p w f h ai Hf Hd Hc). cbn [report analysisState].
  eexists. split; [reflexivity|]. cbn. by rewrite Hkind.
Qed.

Lemma oversized_unknown_file_is_analysed_sample :
  ∃ r, report (run platform_A
                 (snd (handleFileSelect platform_A [big_pdf] initialWorld)))
       = Some r ∧
       fileName r = "scan.pdf" ∧
       fileType r = UNKNOWN ∧
       fileHash r = hex sha_bytes ∧
       currentStep
         (analysisState
            (run platform_A
               (snd (handleFileSelect platform_A [big_pdf] initialWorld))))
         = "COMPLETE".
Proof.
  apply (oversized_unknown_file_is_analysed platform_A
           (snd (handleFileSelect platform_A [big_pdf] initialWorld))
           big_pdf (hex sha_bytes) (partialReport payload_A));
    vm_compute; reflexivity.
Defined.

(** ** The name of the signed-in user *)

Lemma before_at_app (local rest : list ascii) :
  Forall (λ c, c ≠ "@"%char) local →
  before_at (local ++ "@"%char :: rest) = local.
Proof.
  induction 1 as [|c local Hc _ IH]; [done|]. cbn.
  apply Ascii.eqb_neq in Hc. rewrite Hc. by rewrite IH.
Qed.

(** X19: for an address [local@domain], the user is named [local], and
    Investigator when [local] is empty; the name is never empty. *)
Theorem handleSubmit_name local domain :
  at_free local →
  user_name (handleSubmit (local ++ "@" ++ domain))
    = (if String.eqb local "" then "Investigator" else local) ∧
  user_name (handleSubmit (local ++ "@" ++ domain)) ≠ "".
Proof.
  intros Hlocal.
  assert (user_name (handleSubmit (local ++ "@" ++ domain))
          = (if String.eqb local "" then "Investigator" else local)) as Hname.
  { unfold handleSubmit. cbn [user_name].
    rewrite !list_ascii_of_string_app. cbn [list_ascii_of_string app].
    rewrite before_at_app by done.
    by rewrite string_of_list_ascii_of_string. }
  split; [done|]. rewrite Hname.
  destruct (String.eqb local "") eqn:He; [done|]. by apply String.eqb_neq.
Qed.

Lemma handleSubmit_name_sample :
  user_name (handleSubmit "ada@example.org") = "ada" ∧
  user_name (handleSubmit "ada@example.org") ≠ "".
Proof.
  apply (handleSubmit_name "ada" "example.org").
  repeat constructor; discriminate.
Defined.

(** ** The hash preview of the log *)

Lemma substring_prefix n s : ∃ rest, s = String.substring 0 n s ++ rest.
Proof.
  revert s. induction n as [|n IH]; intros s.
  - exists s. by destruct s.
  - destruct s as [|c s]; [by exists ""|].
    destruct (IH s) as [rest Hrest]. exists rest.
    change (String c s = String c (String.substring 0 n s ++ rest)).
    by rewrite <- Hrest.
Qed.

Lemma substring_length n s :
  (n ≤ String.length s)%nat → String.length (String.substring 0 n s) = n.
Proof.
  revert s. induction n as [|n IH]; intros s Hn.
  - by destruct s.
  - destruct s as [|c s]; cbn in Hn; [lia|]. cbn. rewrite IH; lia.
Qed.

(** X20: the third log line of a run whose digest succeeds shows the first
    16 characters of the hash that ends up as the report's [fileHash],
    followed by three dots. *)
Theorem log_shows_hash_preview p w f h ai :
  file w = Some f →
  digest_returns p f h →
  classification_yields p f (contextText w) ai →
  (16 ≤ String.length h)%nat →
  ∃ r preview rest,
    report (run p w) = Some r ∧
    logs (analysisState (run p w)) !! 2%nat
      = Some (log_at p (1 + ticks w) ("SHA-256: " ++ preview ++ "...")) ∧
    String.length preview = 16%nat ∧
    fileHash r = preview ++ rest.
Proof.
  intros Hf Hd Hc Hlen.
  rewrite (run_success p w f h ai Hf Hd Hc). cbn [report analysisState logs].
  destruct (substring_prefix 16 h) as [rest Hrest].
  eexists _, (String.substring 0 16 h), rest.
  split; [reflexivity|]. split; [|split].
  - cbn. unfold substring_to. by rewrite Nat.min_l.
  - by apply substring_length.
  - exact Hrest.
Qed.

Lemma log_shows_hash_preview_scenario_A :
  ∃ r preview rest,
    report (run platform_A (selected sample_png)) = Some r ∧
    logs (analysisState (run platform_A (selected sample_png))) !! 2%nat
      = Some (log_at platform_A 1 ("SHA-256: " ++ preview ++ "...")) ∧
    String.length preview = 16%nat ∧
    fileHash r = preview ++ rest.
Proof.
  apply (log_shows_hash_preview platform_A (selected sample_png) sample_png
           (hex sha_bytes) (partialReport payload_A));
    [reflexivity | vm_compute; reflexivity | vm_compute; reflexivity
     | vm_compute; lia].
Defined.
